(** * Batch visual-comparison driver

    A shallow embedding of [tests/automated-screenshot-comparison.test.ts]:
    the CSV entry reader ([readCsvFile]), the per-entry comparison
    ([performEyesComparison], [establishBaseline]), the four steps of the
    suite and, of [generateSummaryReport], the success rate, the result
    blocks, the error list and the console summary line.

    The browser page and the Applitools Eyes client are external
    collaborators.  They are modelled as an oracle that answers every call
    from the history of all calls made so far, which covers every
    deterministic collaborator.  Calls and their answers are logged, so that
    statements about which calls happened can be read off the log.

    The file system of Steps 1 and 2 is an oracle of the same kind, with a
    log of its own.

    JavaScript numbers that hold counts are modelled as [Z]; the success
    rate is computed on binary64 floats, as the program does.  Timestamps,
    the duration and plain console output are left out, no statement below
    depends on them. *)

From stdpp Require Import gmap strings list numbers pretty.
From Stdlib Require Import ZArith Lia.
From Stdlib Require Floats Uint63.

Local Open Scope Z_scope.

(** ** Values thrown and caught *)

Module Js.

(** What a [catch (error)] clause can receive: an instance of [Error]
    (with its [name] and [message]), or any other value, kept as the text
    [String(value)]. *)
Inductive thrown : Type :=
| ErrorObject (name message : string)
| ThrownValue (text : string).

(** [new Error(msg)] *)
Definition new_Error (msg : string) : thrown := ErrorObject "Error" msg.

(** [String(error)], also what a template literal [`${error}`] inserts;
    for an [Error] this is [Error.prototype.toString]. *)
Definition to_String (e : thrown) : string :=
  match e with
  | ErrorObject n m =>
      if String.eqb n "" then m
      else if String.eqb m "" then n
      else n +:+ ": " +:+ m
  | ThrownValue t => t
  end.

(** [error instanceof Error ? error.message : String(error)] *)
Definition message_or_String (e : thrown) : string :=
  match e with
  | ErrorObject _ m => m
  | ThrownValue t => t
  end.

(** Truthiness of an optional string property: [undefined] and the empty
    string are falsy. *)
Definition truthy (v : option string) : bool :=
  match v with
  | Some s => negb (String.eqb s "")
  | None => false
  end.

Inductive outcome (A : Type) : Type :=
| Returned (a : A)
| Threw (e : thrown).
Arguments Returned {A} a.
Arguments Threw {A} e.

(** Computations over a mutable state [S] that return or throw. *)
Definition M (S A : Type) : Type := S -> outcome A * S.

Definition ret {S A} (a : A) : M S A := fun s => (Returned a, s).

Definition bind {S A B} (m : M S A) (k : A -> M S B) : M S B :=
  fun s =>
    match m s with
    | (Returned a, s') => k a s'
    | (Threw e, s') => (Threw e, s')
    end.

Definition throw {S A} (e : thrown) : M S A := fun s => (Threw e, s).

Definition gets {S A} (f : S -> A) : M S A := fun s => (Returned (f s), s).

Definition modify {S} (f : S -> S) : M S unit := fun s => (Returned tt, f s).

(** [try { body } catch (error) { handler }]: state changes made by the
    body before it threw are kept. *)
Definition try_catch {S A} (body : M S A) (handler : thrown -> M S A) : M S A :=
  fun s =>
    match body s with
    | (Returned a, s') => (Returned a, s')
    | (Threw e, s') => handler e s'
    end.

(** [for (const x of xs) { body }] *)
Fixpoint for_of {S A} (xs : list A) (body : A -> M S unit) : M S unit :=
  match xs with
  | [] => ret tt
  | x :: rest => bind (body x) (fun _ => for_of rest body)
  end.

End Js.

Import Js.

Declare Scope js_scope.
Delimit Scope js_scope with js.
Notation "x <- m ;; k" := (bind m (fun x => k))
  (at level 100, m at next level, right associativity) : js_scope.
Notation "m ;; k" := (bind m (fun _ => k))
  (at level 100, right associativity) : js_scope.
Local Open Scope js_scope.

(** ** Data model *)

Record UrlEntry : Type := mkUrlEntry {
  url : string;
  name : string
}.

(** The [TestResults] object returned by [eyes.close()], read through its
    getters. *)
Record TestResults : Type := mkTestResults {
  getStatus : string;
  getUrl : string;
  getSteps : Z;
  getMatches : Z;
  getMismatches : Z;
  getMissing : Z
}.

Record ComparisonResult : Type := mkComparisonResult {
  r_url : string;
  testName : string;
  status : string;
  appUrl : option string;
  stepsInfo : Z;
  matches : Z;
  mismatches : Z;
  missing : Z;
  success : bool;
  error : option string
}.

Record TestSummary : Type := mkTestSummary {
  totalUrls : Z;
  successfulComparisons : Z;
  failedComparisons : Z;
  totalMatches : Z;
  totalMismatches : Z;
  totalMissing : Z;
  errors : list string;
  eyesResults : list ComparisonResult
}.

(** The summary object created in [beforeAll]. *)
Definition initial_summary : TestSummary :=
  {| totalUrls := 0; successfulComparisons := 0; failedComparisons := 0;
     totalMatches := 0; totalMismatches := 0; totalMissing := 0;
     errors := []; eyesResults := [] |}.

(** ** Collaborators *)

Inductive call : Type :=
| BrowserNewPage
| PageSetViewportSize (width height : Z)
| EyesOpen (appName test : string)
| PageGoto (target : string) (timeout : Z)
| PageWaitForTimeout (ms : Z)
| EyesCheck (tag : string)
| EyesAbortIfNotClosed.

(** One logged interaction: a call with how it ended, or [eyes.close()]
    with what it returned. *)
Inductive event : Type :=
| Called (c : call) (r : outcome unit)
| Closed (r : outcome (option TestResults)).

Record Collaborators : Type := mkCollaborators {
  (** [!localPage || localPage.isClosed()] *)
  page_unusable : list event -> bool;
  (** how a call that returns nothing ends *)
  respond : list event -> call -> outcome unit;
  (** [eyes.close()]: throws, or returns results, or returns nothing *)
  eyes_close : list event -> outcome (option TestResults)
}.

(** Suite-level state: the log of collaborator interactions and the shared
    [testSummary] object. *)
Record Suite : Type := mkSuite {
  trace : list event;
  testSummary : TestSummary
}.

(** The locals of one [performEyesComparison] / [establishBaseline]
    activation, next to the suite state they can reach. *)
Record Frame : Type := mkFrame {
  suite : Suite;
  eyesOpened : bool;
  result : ComparisonResult
}.

Definition config_timeout : Z := 60000.
Definition config_viewport_width : Z := 1920.
Definition config_viewport_height : Z := 1080.

(** *** Field updates *)

Definition log_event (ev : event) (s : Suite) : Suite :=
  {| trace := trace s ++ [ev]; testSummary := testSummary s |}.

Definition with_summary (f : TestSummary -> TestSummary) (s : Suite) : Suite :=
  {| trace := trace s; testSummary := f (testSummary s) |}.

Definition on_suite (f : Suite -> Suite) (fr : Frame) : Frame :=
  {| suite := f (suite fr); eyesOpened := eyesOpened fr; result := result fr |}.

Definition set_eyesOpened (b : bool) (fr : Frame) : Frame :=
  {| suite := suite fr; eyesOpened := b; result := result fr |}.

Definition on_result (f : ComparisonResult -> ComparisonResult) (fr : Frame) : Frame :=
  {| suite := suite fr; eyesOpened := eyesOpened fr; result := f (result fr) |}.

Definition add_totalUrls (n : Z) (t : TestSummary) : TestSummary :=
  {| totalUrls := totalUrls t + n;
     successfulComparisons := successfulComparisons t;
     failedComparisons := failedComparisons t;
     totalMatches := totalMatches t; totalMismatches := totalMismatches t;
     totalMissing := totalMissing t;
     errors := errors t; eyesResults := eyesResults t |}.

Definition incr_successful (t : TestSummary) : TestSummary :=
  {| totalUrls := totalUrls t;
     successfulComparisons := successfulComparisons t + 1;
     failedComparisons := failedComparisons t;
     totalMatches := totalMatches t; totalMismatches := totalMismatches t;
     totalMissing := totalMissing t;
     errors := errors t; eyesResults := eyesResults t |}.

Definition incr_failed (t : TestSummary) : TestSummary :=
  {| totalUrls := totalUrls t;
     successfulComparisons := successfulComparisons t;
     failedComparisons := failedComparisons t + 1;
     totalMatches := totalMatches t; totalMismatches := totalMismatches t;
     totalMissing := totalMissing t;
     errors := errors t; eyesResults := eyesResults t |}.

Definition add_counts (m mm mi : Z) (t : TestSummary) : TestSummary :=
  {| totalUrls := totalUrls t;
     successfulComparisons := successfulComparisons t;
     failedComparisons := failedComparisons t;
     totalMatches := totalMatches t + m;
     totalMismatches := totalMismatches t + mm;
     totalMissing := totalMissing t + mi;
     errors := errors t; eyesResults := eyesResults t |}.

Definition push_error (msg : string) (t : TestSummary) : TestSummary :=
  {| totalUrls := totalUrls t;
     successfulComparisons := successfulComparisons t;
     failedComparisons := failedComparisons t;
     totalMatches := totalMatches t; totalMismatches := totalMismatches t;
     totalMissing := totalMissing t;
     errors := errors t ++ [msg]; eyesResults := eyesResults t |}.

Definition push_result (r : ComparisonResult) (t : TestSummary) : TestSummary :=
  {| totalUrls := totalUrls t;
     successfulComparisons := successfulComparisons t;
     failedComparisons := failedComparisons t;
     totalMatches := totalMatches t; totalMismatches := totalMismatches t;
     totalMissing := totalMissing t;
     errors := errors t; eyesResults := eyesResults t ++ [r] |}.

(** The assignments [result.status = ...; ...; result.success = ...] made
    from a non-null [eyesResults]. *)
Definition fill_from_results (tr : TestResults) (r : ComparisonResult) : ComparisonResult :=
  {| r_url := r_url r; testName := testName r;
     status := getStatus tr;
     appUrl := Some (getUrl tr);
     stepsInfo := getSteps tr;
     matches := getMatches tr;
     mismatches := getMismatches tr;
     missing := getMissing tr;
     success := String.eqb (getStatus tr) "Passed";
     error := error r |}.

(** [result.error = ...; result.success = false] *)
Definition fill_from_error (e : thrown) (r : ComparisonResult) : ComparisonResult :=
  {| r_url := r_url r; testName := testName r;
     status := status r; appUrl := appUrl r; stepsInfo := stepsInfo r;
     matches := matches r; mismatches := mismatches r; missing := missing r;
     success := false;
     error := Some (message_or_String e) |}.

(** The object literal [result] starts from. *)
Definition fresh_result (urlEntry : UrlEntry) : ComparisonResult :=
  {| r_url := url urlEntry; testName := name urlEntry;
     status := "Failed"; appUrl := None; stepsInfo := 0;
     matches := 0; mismatches := 0; missing := 0;
     success := false; error := None |}.

(** ** Entry reader *)

(** What the csv-parser stream delivers: the parsed rows (one object per
    row, keyed by the header names), followed by ['end'] or, when the parser
    itself fails, by its ['error'] event.  The handlers of [readCsvFile] are
    attached to the parser, the stream [pipe] returns; an error of the file
    stream is not among them, see [list_file] below. *)
Record CsvStream : Type := mkCsvStream {
  rows : list (gmap string string);
  failure : option thrown
}.

(** The ['data'] handler: [if (data.url && data.name) results.push(...)]. *)
Definition on_data (results : list UrlEntry) (data : gmap string string) : list UrlEntry :=
  match data !! "url", data !! "name" with
  | Some u, Some n =>
      if truthy (Some u) && truthy (Some n)
      then results ++ [ {| url := u; name := n |} ]
      else results
  | _, _ => results
  end.

(** The promise settles with [reject] on ['error'] and with
    [resolve(results)] on ['end']. *)
Definition readCsvFile (source : CsvStream) : outcome (list UrlEntry) :=
  match failure source with
  | Some e => Threw e
  | None => Returned (foldl on_data [] (rows source))
  end.

(** ** Comparison orchestrator *)

Section Driver.

Variable env : Collaborators.

(** [await] of a collaborator call that returns nothing. *)
Definition await (c : call) : M Frame unit :=
  fun fr =>
    let r := respond env (trace (suite fr)) c in
    (r, on_suite (log_event (Called c r)) fr).

(** [await eyes.close()] *)
Definition await_close : M Frame (option TestResults) :=
  fun fr =>
    let r := eyes_close env (trace (suite fr)) in
    (r, on_suite (log_event (Closed r)) fr).

(** [if (!localPage || localPage.isClosed()) { ... }] *)
Definition ensure_page : M Frame unit :=
  closed <- gets (fun fr => page_unusable env (trace (suite fr))) ;;
  if (closed : bool)
  then await BrowserNewPage ;;
       await (PageSetViewportSize config_viewport_width config_viewport_height)
  else ret tt.

(** The inner [try { await eyes.abortIfNotClosed() } catch (abortError) { log }],
    guarded by [if (eyesOpened)]. *)
Definition abort_if_opened : M Frame unit :=
  opened <- gets eyesOpened ;;
  if (opened : bool)
  then try_catch (await EyesAbortIfNotClosed) (fun abortError => ret tt)
  else ret tt.

(** The [if (result.success) ... else ...] update and the three sums. *)
Definition update_summary (r : ComparisonResult) (t : TestSummary) : TestSummary :=
  add_counts (matches r) (mismatches r) (missing r)
    (if success r then incr_successful t else incr_failed t).

Definition comparison_try (urlEntry : UrlEntry) : M Frame unit :=
  ensure_page ;;
  await (EyesOpen "Automated Screenshot Comparison" ("Comparison: " +:+ name urlEntry)) ;;
  modify (set_eyesOpened true) ;;
  await (PageGoto (url urlEntry) config_timeout) ;;
  await (PageWaitForTimeout 2000) ;;
  await (EyesCheck (name urlEntry +:+ " - Full Page")) ;;
  eyesResults <- await_close ;;
  modify (set_eyesOpened false) ;;
  match eyesResults with
  | Some tr =>
      modify (on_result (fill_from_results tr)) ;;
      r <- gets result ;;
      modify (on_suite (with_summary (update_summary r)))
  | None => throw (new_Error "No results returned from Eyes")
  end.

Definition comparison_catch (urlEntry : UrlEntry) (error : thrown) : M Frame unit :=
  abort_if_opened ;;
  modify (on_result (fill_from_error error)) ;;
  modify (on_suite (with_summary incr_failed)) ;;
  let errorMsg := "Failed Eyes comparison for " +:+ url urlEntry +:+ ": " +:+ to_String error in
  modify (on_suite (with_summary (push_error errorMsg))).

(** Runs a function body that has the locals of a [Frame] and returns
    [result]. *)
Definition call_with_frame (r0 : ComparisonResult) (body : M Frame unit) : M Suite ComparisonResult :=
  fun s =>
    match body {| suite := s; eyesOpened := false; result := r0 |} with
    | (Returned _, fr) => (Returned (result fr), suite fr)
    | (Threw e, fr) => (Threw e, suite fr)
    end.

Definition performEyesComparison (urlEntry : UrlEntry) : M Suite ComparisonResult :=
  call_with_frame (fresh_result urlEntry)
    (try_catch (comparison_try urlEntry) (comparison_catch urlEntry)).

Definition baseline_try (urlEntry : UrlEntry) : M Frame unit :=
  ensure_page ;;
  await (EyesOpen "Automated Screenshot Comparison" ("Baseline: " +:+ name urlEntry)) ;;
  modify (set_eyesOpened true) ;;
  await (PageGoto (url urlEntry) config_timeout) ;;
  await (PageWaitForTimeout 2000) ;;
  await (EyesCheck (name urlEntry +:+ " - Full Page")) ;;
  _ <- await_close ;;
  modify (set_eyesOpened false).

Definition baseline_catch (urlEntry : UrlEntry) (error : thrown) : M Frame unit :=
  abort_if_opened ;;
  let errorMsg := "Failed to establish baseline for " +:+ url urlEntry +:+ ": " +:+ to_String error in
  modify (on_suite (with_summary (push_error errorMsg))).

Definition establishBaseline (urlEntry : UrlEntry) : M Suite unit :=
  _ <- call_with_frame (fresh_result urlEntry)
         (try_catch (baseline_try urlEntry) (baseline_catch urlEntry)) ;;
  ret tt.

(** ** The two batch steps *)

(** [await readCsvFile(path)], with the stream that path delivers. *)
Definition await_read (source : CsvStream) : M Suite (list UrlEntry) :=
  fun s => (readCsvFile source, s).

(** Step 3: establish baselines from the source list. *)
Definition step3 (apiKey : bool) (source : CsvStream) : M Suite unit :=
  if negb apiKey then ret tt
  else
    try_catch
      (urls <- await_read source ;;
       modify (with_summary (add_totalUrls (Z.of_nat (length urls)))) ;;
       for_of urls establishBaseline)
      (fun error =>
         let errorMsg := "Failed to establish baselines: " +:+ to_String error in
         modify (with_summary (push_error errorMsg)) ;;
         throw (new_Error errorMsg)).

(** The body of the Step 4 loop:
    [const result = await performEyesComparison(urlEntry);
     testSummary.eyesResults.push(result)]. *)
Definition compare_and_record (urlEntry : UrlEntry) : M Suite unit :=
  result <- performEyesComparison urlEntry ;;
  modify (with_summary (push_result result)).

(** Step 4: compare every entry of the target list. *)
Definition step4 (apiKey : bool) (target : CsvStream) : M Suite unit :=
  if negb apiKey then ret tt
  else
    try_catch
      (urls <- await_read target ;;
       for_of urls compare_and_record)
      (fun error =>
         let errorMsg := "Failed to perform visual comparison: " +:+ to_String error in
         modify (with_summary (push_error errorMsg)) ;;
         throw (new_Error errorMsg)).

(** The suite as Jest runs it: [beforeAll] creates the summary, then the
    steps run in order; a step that throws fails that test only, the next
    one still runs. *)
Definition run_suite (apiKey : bool) (source target : CsvStream) : Suite :=
  let s0 := {| trace := []; testSummary := initial_summary |} in
  let s3 := snd (step3 apiKey source s0) in
  snd (step4 apiKey target s3).

End Driver.

(** ** Report: the success rate *)

(** A count as the JavaScript number it is, exact below 2^53. *)
Definition number_of_count (n : Z) : PrimFloat.float :=
  match n with
  | Zneg p => PrimFloat.opp (PrimFloat.of_uint63 (Uint63.of_Z (Zpos p)))
  | _ => PrimFloat.of_uint63 (Uint63.of_Z n)
  end.

(** [(successful / total) * 100], in binary64 arithmetic. *)
Definition percentage (successful total : Z) : PrimFloat.float :=
  PrimFloat.mul
    (PrimFloat.div (number_of_count successful) (number_of_count total))
    (number_of_count 100).

Section Report.

(** [Number.prototype.toFixed(2)], the formatting of a number with two
    decimals. *)
Variable toFixed2 : PrimFloat.float -> string.

Definition totalComparisons (t : TestSummary) : Z :=
  successfulComparisons t + failedComparisons t.

(** [totalComparisons > 0 ? ((successful / totalComparisons) * 100).toFixed(2) : '0'] *)
Definition successRate (t : TestSummary) : string :=
  if totalComparisons t >? 0
  then toFixed2 (percentage (successfulComparisons t) (totalComparisons t))
  else "0".

(** The report line [- **Success Rate**: ${successRate}%]. *)
Definition success_rate_line (t : TestSummary) : string :=
  "- **Success Rate**: " +:+ successRate t +:+ "%".

End Report.

(** ** Reading the log *)

Definition is_abort (ev : event) : bool :=
  match ev with
  | Called EyesAbortIfNotClosed _ => true
  | _ => false
  end.

Definition is_open_ok (ev : event) : bool :=
  match ev with
  | Called (EyesOpen _ _) (Returned _) => true
  | _ => false
  end.

Definition is_close_ok (ev : event) : bool :=
  match ev with
  | Closed (Returned _) => true
  | _ => false
  end.

(** Navigation, settle delay, checkpoint or close ended by throwing. *)
Definition is_step_thrown (ev : event) : bool :=
  match ev with
  | Called (PageGoto _ _) (Threw _) => true
  | Called (PageWaitForTimeout _) (Threw _) => true
  | Called (EyesCheck _) (Threw _) => true
  | Closed (Threw _) => true
  | _ => false
  end.

(** [eyes.close()] returned, but no results object. *)
Definition is_close_empty (ev : event) : bool :=
  match ev with
  | Closed (Returned None) => true
  | _ => false
  end.

(** The results object the last successful [eyes.close()] of a log
    returned, if any. *)
Definition verdict_of (evs : list event) : option TestResults :=
  foldl (fun acc ev => match ev with Closed (Returned (Some tr)) => Some tr | _ => acc end) None evs.

(** What the [catch] clause of an activation receives, read off the calls
    of its [try] block: the first thing thrown, or the error raised for a
    close that returned no results object.  A throwing
    [abortIfNotClosed] happens inside the [catch] clause and is skipped. *)
Fixpoint caught_of (evs : list event) : option thrown :=
  match evs with
  | [] => None
  | Called EyesAbortIfNotClosed _ :: rest => caught_of rest
  | Called _ (Threw e) :: _ => Some e
  | Closed (Threw e) :: _ => Some e
  | Closed (Returned None) :: _ => Some (new_Error "No results returned from Eyes")
  | _ :: rest => caught_of rest
  end.

(** The result of an entry as a function of the entry and of what the
    collaborators answered during its own calls. *)
Definition result_of_segment (urlEntry : UrlEntry) (seg : list event) : ComparisonResult :=
  match verdict_of seg with
  | Some tr => fill_from_results tr (fresh_result urlEntry)
  | None =>
      match caught_of seg with
      | Some e => fill_from_error e (fresh_result urlEntry)
      | None => fresh_result urlEntry
      end
  end.

Definition count_events (p : event -> bool) (evs : list event) : nat :=
  foldr (fun ev n => if p ev then S n else n) 0%nat evs.

(** The part of the log written between two suite states. *)
Definition events_between (s s' : Suite) : list event :=
  drop (length (trace s)) (trace s').

(** ** Sample collaborators *)

Definition passed_results : TestResults :=
  {| getStatus := "Passed"; getUrl := "https://eyes.example/r/1"; getSteps := 1;
     getMatches := 1; getMismatches := 0; getMissing := 0 |}.

(** Every call succeeds and every session closes with [tr]. *)
Definition cooperative (tr : TestResults) : Collaborators :=
  {| page_unusable := fun _ => false;
     respond := fun _ _ => Returned tt;
     eyes_close := fun _ => Returned (Some tr) |}.

(** As [cooperative], but navigating to [bad] times out. *)
Definition unreachable (bad : string) (tr : TestResults) : Collaborators :=
  {| page_unusable := fun _ => false;
     respond := fun _ c =>
       match c with
       | PageGoto u _ =>
           if String.eqb u bad
           then Threw (ErrorObject "TimeoutError" "Timeout 60000ms exceeded")
           else Returned tt
       | _ => Returned tt
       end;
     eyes_close := fun _ => Returned (Some tr) |}.

(** Every session closes without a results object. *)
Definition silent_close : Collaborators :=
  {| page_unusable := fun _ => false;
     respond := fun _ _ => Returned tt;
     eyes_close := fun _ => Returned None |}.

Definition row (u n : string) : gmap string string :=
  <["name" := n]> (<["url" := u]> ∅).

Definition good_entry : UrlEntry := {| url := "https://good.example"; name := "Good" |}.
Definition bad_entry : UrlEntry := {| url := "https://bad.example"; name := "Bad" |}.

(** ** Steps 1 and 2: environment and list files *)

(** The file-system calls of Steps 1 and 2, logged with how they ended. *)
Inductive fs_event : Type :=
| FsEnsureDir (path : string) (r : outcome unit)
| FsPathExists (path : string) (r : outcome bool)
| FsWriteFile (path content : string) (r : outcome unit)
| FsStat (path : string) (r : outcome Z).

(** The file system (fs-extra), answering from the history of calls;
    [stat_size] is [(await fs.stat(path)).size]. *)
Record FileSystem : Type := mkFileSystem {
  ensureDir : list fs_event -> string -> outcome unit;
  pathExists : list fs_event -> string -> outcome bool;
  writeFile : list fs_event -> string -> string -> outcome unit;
  stat_size : list fs_event -> string -> outcome Z
}.

(** The state Steps 1 and 2 work on: the file-system log and the suite. *)
Record World : Type := mkWorld {
  fs_log : list fs_event;
  tests : Suite
}.

Definition log_fs (ev : fs_event) (w : World) : World :=
  {| fs_log := fs_log w ++ [ev]; tests := tests w |}.

Definition on_tests (f : Suite -> Suite) (w : World) : World :=
  {| fs_log := fs_log w; tests := f (tests w) |}.

(** Runs a suite-level computation inside the world. *)
Definition in_tests {A} (m : M Suite A) : M World A :=
  fun w =>
    match m (tests w) with
    | (o, s') => (o, {| fs_log := fs_log w; tests := s' |})
    end.

Definition newline : string := String (Ascii.ascii_of_nat 10) EmptyString.

Definition directories_results : string := "./Results".
Definition csvFiles_source : string := "./source.csv".
Definition csvFiles_target : string := "./target.csv".

(** ['url,name\nhttps://example.com,Example\nhttps://google.com,Google\n'] *)
Definition sampleContent : string :=
  "url,name" +:+ newline +:+ "https://example.com,Example" +:+ newline
  +:+ "https://google.com,Google" +:+ newline.

Section Files.

Variable fs : FileSystem.

Definition await_ensureDir (path : string) : M World unit :=
  fun w =>
    let r := ensureDir fs (fs_log w) path in
    (r, log_fs (FsEnsureDir path r) w).

Definition await_pathExists (path : string) : M World bool :=
  fun w =>
    let r := pathExists fs (fs_log w) path in
    (r, log_fs (FsPathExists path r) w).

Definition await_writeFile (path content : string) : M World unit :=
  fun w =>
    let r := writeFile fs (fs_log w) path content in
    (r, log_fs (FsWriteFile path content r) w).

Definition await_stat (path : string) : M World Z :=
  fun w =>
    let r := stat_size fs (fs_log w) path in
    (r, log_fs (FsStat path r) w).

(** [testSummary.errors.push(msg)] *)
Definition record_error (msg : string) : M World unit :=
  modify (on_tests (with_summary (push_error msg))).

(** Step 1: validate environment and setup. *)
Definition step1 (apiKey : bool) : M World unit :=
  (if negb apiKey
   then record_error "APPLITOOLS_API_KEY not set. Visual comparisons will be skipped."
   else ret tt) ;;
  try_catch
    (await_ensureDir directories_results)
    (fun error =>
       let errorMsg := "Failed to create results directory: " +:+ to_String error in
       record_error errorMsg ;;
       throw (new_Error errorMsg)).

(** The body of the Step 2 loop, for one file. *)
Definition validate_csv (csvFile : string) : M World unit :=
  try_catch
    (exists_ <- await_pathExists csvFile ;;
     (if negb exists_
      then await_writeFile csvFile sampleContent
      else ret tt) ;;
     size <- await_stat csvFile ;;
     if size =? 0
     then
       let errorMsg := "CSV file is empty: " +:+ csvFile in
       record_error errorMsg ;;
       throw (new_Error errorMsg)
     else ret tt)
    (fun error =>
       let errorMsg :=
         "Failed to validate CSV file: " +:+ csvFile +:+ " - " +:+ to_String error in
       record_error errorMsg ;;
       throw (new_Error errorMsg)).

(** Step 2: check for the required CSV files. *)
Definition step2 : M World unit :=
  for_of [csvFiles_source; csvFiles_target] validate_csv.

End Files.

(** ** Report: result blocks and error list *)

(** Truthiness of a string: the empty string is falsy. *)
Definition truthy_string (v : string) : bool := negb (String.eqb v "").

(** [${result.appUrl ? `- **Applitools Results**: [View Results](${result.appUrl})` : ''}] *)
Definition link_line (r : ComparisonResult) : string :=
  match appUrl r with
  | Some u =>
      if truthy_string u
      then "- **Applitools Results**: [View Results](" +:+ u +:+ ")"
      else ""
  | None => ""
  end.

(** [${result.error ? `- **Error**: ${result.error}` : ''}] *)
Definition error_line (r : ComparisonResult) : string :=
  match error r with
  | Some m => if truthy_string m then "- **Error**: " +:+ m else ""
  | None => ""
  end.

(** The lines of the block the report prints for the result at position
    [index] (counted from 0); numbers print in decimal. *)
Definition result_block_lines (index : nat) (r : ComparisonResult) : list string :=
  [ "";
    "### " +:+ pretty (Z.of_nat index + 1) +:+ ". " +:+ testName r;
    "- **URL**: " +:+ r_url r;
    "- **Status**: " +:+ status r;
    "- **Matches**: " +:+ pretty (matches r);
    "- **Mismatches**: " +:+ pretty (mismatches r);
    "- **Missing**: " +:+ pretty (missing r);
    "- **Steps**: " +:+ pretty (stepsInfo r);
    link_line r;
    error_line r;
    "" ].

(** [lines.join('\n')] *)
Fixpoint join_lines (lines : list string) : string :=
  match lines with
  | [] => ""
  | [l] => l
  | l :: rest => l +:+ newline +:+ join_lines rest
  end.

(** [testSummary.eyesResults.map((result, index) => `...`).join('\n')] *)
Definition detailed_results (t : TestSummary) : string :=
  join_lines (imap (fun index r => join_lines (result_block_lines index r)) (eyesResults t)).

(** The numbered lines of the error list. *)
Definition numbered_errors (errs : list string) : list string :=
  imap (fun index e => pretty (Z.of_nat index + 1) +:+ ". " +:+ e) errs.

(** [errors.length > 0 ? errors.map(...).join('\n') : 'No errors encountered.'] *)
Definition errors_section (t : TestSummary) : string :=
  if (0 <? length (errors t))%nat
  then join_lines (numbered_errors (errors t))
  else "No errors encountered.".

(** [`Visual Tests: ${successful}/${totalComparisons} successful`] *)
Definition console_summary_line (t : TestSummary) : string :=
  "Visual Tests: " +:+ pretty (successfulComparisons t) +:+ "/"
  +:+ pretty (totalComparisons t) +:+ " successful".

(** ** Opening the list files *)

(** What happens when [readCsvFile] opens a path.  [Readable]: the file
    stream feeds the parser, which delivers a [CsvStream].  [Unreadable]: the
    file stream fails (the file is missing or cannot be read); [pipe] does not
    pass that error on to the parser, so none of the handlers runs and the
    promise is never settled. *)
Inductive list_file : Type :=
| Readable (stream : CsvStream)
| Unreadable.

(** The promise of [readCsvFile(path)]: settled with an outcome, or never
    settled ([None]). *)
Definition readCsvFile_from (file : list_file) : option (outcome (list UrlEntry)) :=
  match file with
  | Readable stream => Some (readCsvFile stream)
  | Unreadable => None
  end.

(** Step 3 on a path: [None] when the test body never completes, because
    it awaits a promise that is never settled; the summary is then as it was
    when the await began. *)
Definition step3_from (env : Collaborators) (apiKey : bool) (file : list_file) (s : Suite)
    : option (outcome unit) * Suite :=
  match file with
  | Readable stream =>
      let (o, s') := step3 env apiKey stream s in (Some o, s')
  | Unreadable =>
      if negb apiKey then (Some (Returned tt), s) else (None, s)
  end.

(** Step 4 on a path, likewise. *)
Definition step4_from (env : Collaborators) (apiKey : bool) (file : list_file) (s : Suite)
    : option (outcome unit) * Suite :=
  match file with
  | Readable stream =>
      let (o, s') := step4 env apiKey stream s in (Some o, s')
  | Unreadable =>
      if negb apiKey then (Some (Returned tt), s) else (None, s)
  end.

(** Steps 3 and 4 on two paths; Jest goes on to Step 4 whatever became of
    Step 3. *)
Definition run_suite_from (env : Collaborators) (apiKey : bool) (source target : list_file)
    : Suite :=
  snd (step4_from env apiKey target
         (snd (step3_from env apiKey source
                 {| trace := []; testSummary := initial_summary |}))).

(** * Vocabulary of the properties *)

(** The message Step 4 records for an entry that failed locally. *)
Definition comparison_error_line (urlEntry : UrlEntry) (e : thrown) : string :=
  "Failed Eyes comparison for " +:+ url urlEntry +:+ ": " +:+ to_String e.

(** How the calls of one activation fit together: at most one session is
    opened; an opened session is closed or aborted, one or the other; a step
    after the open throws only if the close did not succeed. *)
Definition session_discipline (seg : list event) : Prop :=
  (count_events is_open_ok seg <= 1)%nat /\
  (count_events is_abort seg + count_events is_close_ok seg
     = count_events is_open_ok seg)%nat /\
  (count_events is_step_thrown seg + count_events is_close_ok seg
     <= count_events is_open_ok seg)%nat.

(** The two ways one [performEyesComparison] activation can end: the
    session closed with a results object [tr], or something was thrown and
    caught as [e].  [seg] is what the activation added to the log. *)
Inductive entry_run (urlEntry : UrlEntry) (s : Suite) : ComparisonResult -> Suite -> Prop :=
| run_verdict (seg : list event) (tr : TestResults) (r : ComparisonResult) :
    r = fill_from_results tr (fresh_result urlEntry) ->
    verdict_of seg = Some tr ->
    session_discipline seg ->
    count_events is_close_ok seg = 1%nat ->
    count_events is_close_empty seg = 0%nat ->
    entry_run urlEntry s r
      {| trace := trace s ++ seg;
         testSummary := update_summary r (testSummary s) |}
| run_failure (seg : list event) (e : thrown) :
    verdict_of seg = None ->
    caught_of seg = Some e ->
    session_discipline seg ->
    count_events is_close_ok seg = count_events is_close_empty seg ->
    (count_events is_close_empty seg = 1%nat ->
     e = new_Error "No results returned from Eyes") ->
    entry_run urlEntry s (fill_from_error e (fresh_result urlEntry))
      {| trace := trace s ++ seg;
         testSummary := push_error (comparison_error_line urlEntry e)
                          (incr_failed (testSummary s)) |}.

(** Unfolds one activation down to the collaborators' answers. *)
Ltac unfold_entry :=
  cbv beta iota zeta delta
    [performEyesComparison establishBaseline call_with_frame try_catch
     comparison_try comparison_catch baseline_try baseline_catch
     ensure_page abort_if_opened await await_close
     bind gets modify ret throw on_suite on_result set_eyesOpened
     suite eyesOpened result trace testSummary log_event with_summary].

(** Case analysis on every answer the collaborators give along the way. *)
Ltac split_answers :=
  repeat match goal with
  | |- context [page_unusable ?e ?t] => destruct (page_unusable e t) eqn:?
  | |- context [respond ?e ?t ?c] => destruct (respond e t c) as [[]|?] eqn:?
  | |- context [eyes_close ?e ?t] => destruct (eyes_close e t) as [[?|]|?] eqn:?
  | _ => progress cbv beta iota zeta
  end.

(** 1 for [true], 0 for [false]. *)
Definition one_if (b : bool) : Z := if b then 1 else 0.

(** A run of the loop, entry by entry: each activation is followed by the
    push of its result. *)
Inductive batch_run : list UrlEntry -> Suite -> list ComparisonResult -> Suite -> Prop :=
| batch_done (s : Suite) : batch_run [] s [] s
| batch_next (urlEntry : UrlEntry) (rest : list UrlEntry) (s s1 s2 : Suite)
    (r : ComparisonResult) (rs : list ComparisonResult) :
    entry_run urlEntry s r s1 ->
    batch_run rest (with_summary (push_result r) s1) rs s2 ->
    batch_run (urlEntry :: rest) s (r :: rs) s2.

(** [f] summed over a list of results. *)
Definition sum_of (f : ComparisonResult -> Z) (rs : list ComparisonResult) : Z :=
  foldr (fun r acc => f r + acc) 0 rs.

(** The number of results that satisfy [p]. *)
Definition count_where (p : ComparisonResult -> bool) (rs : list ComparisonResult) : Z :=
  sum_of (fun r => one_if (p r)) rs.

(** [status === 'Passed'] *)
Definition passed (r : ComparisonResult) : bool := String.eqb (status r) "Passed".

(** Two summaries that differ at most in their [errors] list. *)
Definition same_counters (t t' : TestSummary) : Prop :=
  totalUrls t' = totalUrls t /\
  eyesResults t' = eyesResults t /\
  successfulComparisons t' = successfulComparisons t /\
  failedComparisons t' = failedComparisons t /\
  totalMatches t' = totalMatches t /\
  totalMismatches t' = totalMismatches t /\
  totalMissing t' = totalMissing t.

(** The entries a step works on: none without an API key or when the
    parser fails. *)
Definition entries_of (apiKey : bool) (source : CsvStream) : list UrlEntry :=
  if apiKey
  then match readCsvFile source with
       | Returned urls => urls
       | Threw _ => []
       end
  else [].

(** Collaborators whose answers do not depend on what happened before. *)
Definition history_free (env : Collaborators) : Prop :=
  forall t : list event,
    page_unusable env t = page_unusable env [] /\
    (forall c, respond env t c = respond env [] c) /\
    eyes_close env t = eyes_close env [].

(** The result of an entry compared on its own, in a fresh suite. *)
Definition compared_alone (env : Collaborators) (urlEntry : UrlEntry) : outcome ComparisonResult :=
  fst (performEyesComparison env urlEntry {| trace := []; testSummary := initial_summary |}).

(** As [split_answers], for collaborators that answer without looking at
    the history: every query is first moved to the empty history. *)
Ltac split_answers_free H :=
  repeat match goal with
  | |- context [page_unusable ?e ?t] =>
      lazymatch t with [] => fail | _ => rewrite (proj1 (H t)) end
  | |- context [respond ?e ?t ?c] =>
      lazymatch t with [] => fail | _ => rewrite (proj1 (proj2 (H t)) c) end
  | |- context [eyes_close ?e ?t] =>
      lazymatch t with [] => fail | _ => rewrite (proj2 (proj2 (H t))) end
  | |- context [page_unusable ?e []] => destruct (page_unusable e []) eqn:?
  | |- context [respond ?e [] ?c] => destruct (respond e [] c) as [[]|?] eqn:?
  | |- context [eyes_close ?e []] => destruct (eyes_close e []) as [[?|]|?] eqn:?
  | _ => progress cbv beta iota zeta
  end.

(** The aggregation property with [totalUrls] read as the total. *)
Definition aggregation_as_stated (t : TestSummary) : Prop :=
  successfulComparisons t + failedComparisons t = totalUrls t /\
  totalUrls t = Z.of_nat (length (eyesResults t)) /\
  totalMatches t = sum_of matches (eyesResults t) /\
  totalMismatches t = sum_of mismatches (eyesResults t) /\
  totalMissing t = sum_of missing (eyesResults t).

(** Sample lists. *)
Definition one_row_source : CsvStream :=
  {| rows := [row "https://good.example" "Good"]; failure := None |}.

Definition two_row_target : CsvStream :=
  {| rows := [row "https://good.example" "Good"; row "https://bad.example" "Bad"];
     failure := None |}.

(** The suite state right after [beforeAll]. *)
Definition fresh_suite : Suite := {| trace := []; testSummary := initial_summary |}.

(** The result invariant with a status [Error] for local failures. *)
Definition invariant_as_stated (r : ComparisonResult) (verdict : option TestResults) : Prop :=
  (status r = "Error" <-> is_Some (error r)) /\
  (is_Some (error r) <->
   matches r = 0 /\ mismatches r = 0 /\ missing r = 0 /\ verdict = None).

(** Accumulating [r] with each count clamped at zero. *)
Definition clamped_accumulation (t : TestSummary) (r : ComparisonResult) (t' : TestSummary) : Prop :=
  totalMatches t' = totalMatches t + Z.max 0 (matches r) /\
  totalMismatches t' = totalMismatches t + Z.max 0 (mismatches r) /\
  totalMissing t' = totalMissing t + Z.max 0 (missing r).

(** A results object whose [matches] is negative. *)
Definition negative_results : TestResults :=
  {| getStatus := "Passed"; getUrl := "https://eyes.example/r/2"; getSteps := 1;
     getMatches := -3; getMismatches := 0; getMissing := 0 |}.

(** One entry compared while the close returns no results object. *)
Definition silent_run : outcome ComparisonResult * Suite :=
  performEyesComparison silent_close good_entry fresh_suite.

Definition silent_result : ComparisonResult :=
  match fst silent_run with
  | Returned r => r
  | Threw _ => fresh_result good_entry
  end.

(** The entry of a row that has a non-empty [url] and a non-empty [name]. *)
Definition valid_row (data : gmap string string) : option UrlEntry :=
  match data !! "url", data !! "name" with
  | Some u, Some n =>
      if decide (u <> "" /\ n <> "") then Some {| url := u; name := n |} else None
  | _, _ => None
  end.

(** A results object with the verdict [Unresolved]. *)
Definition unresolved_results : TestResults :=
  {| getStatus := "Unresolved"; getUrl := "https://eyes.example/r/3"; getSteps := 1;
     getMatches := 0; getMismatches := 1; getMissing := 0 |}.

(** The message Step 3 records for an entry whose baseline failed. *)
Definition baseline_error_line (urlEntry : UrlEntry) (e : thrown) : string :=
  "Failed to establish baseline for " +:+ url urlEntry +:+ ": " +:+ to_String e.

(** The first thing thrown by a call of the [try] block of a log segment;
    a close that returns, with or without results, throws nothing. *)
Fixpoint thrown_in_try (evs : list event) : option thrown :=
  match evs with
  | [] => None
  | Called EyesAbortIfNotClosed _ :: rest => thrown_in_try rest
  | Called _ (Threw e) :: _ => Some e
  | Closed (Threw e) :: _ => Some e
  | _ :: rest => thrown_in_try rest
  end.

(** A logged interaction without its answer. *)
Inductive step_label : Type :=
| Step (c : call)
| StepClose.

Definition label_of (ev : event) : step_label :=
  match ev with
  | Called c _ => Step c
  | Closed _ => StepClose
  end.

(** The calls of the [try] block of [performEyesComparison] in program
    order; [freshPage] tells whether a new page has to be created first. *)
Definition comparison_steps (urlEntry : UrlEntry) (freshPage : bool) : list step_label :=
  (if freshPage
   then [Step BrowserNewPage;
         Step (PageSetViewportSize config_viewport_width config_viewport_height)]
   else [])
  ++ [Step (EyesOpen "Automated Screenshot Comparison" ("Comparison: " +:+ name urlEntry));
      Step (PageGoto (url urlEntry) config_timeout);
      Step (PageWaitForTimeout 2000);
      Step (EyesCheck (name urlEntry +:+ " - Full Page"));
      StepClose].

(** The same for [establishBaseline]. *)
Definition baseline_steps (urlEntry : UrlEntry) (freshPage : bool) : list step_label :=
  (if freshPage
   then [Step BrowserNewPage;
         Step (PageSetViewportSize config_viewport_width config_viewport_height)]
   else [])
  ++ [Step (EyesOpen "Automated Screenshot Comparison" ("Baseline: " +:+ name urlEntry));
      Step (PageGoto (url urlEntry) config_timeout);
      Step (PageWaitForTimeout 2000);
      Step (EyesCheck (name urlEntry +:+ " - Full Page"));
      StepClose].

(** Splits a log segment at its first [abortIfNotClosed]. *)
Fixpoint until_abort (evs : list event) : list event * list event :=
  match evs with
  | [] => ([], [])
  | ev :: rest =>
      if is_abort ev then ([], evs)
      else let (before, after) := until_abort rest in (ev :: before, after)
  end.

Definition returned_normally (ev : event) : bool :=
  match ev with
  | Called _ (Returned _) => true
  | Closed (Returned _) => true
  | _ => false
  end.

(** One event seen by an observer who tracks whether an Eyes session is
    open: [None] when the event is out of place (a second open, a page step,
    close or abort without an open session, a new page inside one). *)
Definition session_step (opened : bool) (ev : event) : option bool :=
  match ev with
  | Called (EyesOpen _ _) (Returned _) => if opened then None else Some true
  | Called (EyesOpen _ _) (Threw _) => if opened then None else Some false
  | Closed (Returned _) => if opened then Some false else None
  | Closed (Threw _) => if opened then Some true else None
  | Called EyesAbortIfNotClosed _ => if opened then Some false else None
  | Called (PageGoto _ _) _ => if opened then Some true else None
  | Called (PageWaitForTimeout _) _ => if opened then Some true else None
  | Called (EyesCheck _) _ => if opened then Some true else None
  | Called BrowserNewPage _ => if opened then None else Some false
  | Called (PageSetViewportSize _ _) _ => if opened then None else Some false
  end.

(** The observer run over a log. *)
Fixpoint sessions (opened : bool) (evs : list event) : option bool :=
  match evs with
  | [] => Some opened
  | ev :: rest =>
      match session_step opened ev with
      | Some opened' => sessions opened' rest
      | None => None
      end
  end.

(** The error lines a comparison adds to [testSummary.errors], read off its
    log segment: one line when no results object came back, none otherwise. *)
Definition comparison_error_lines (urlEntry : UrlEntry) (seg : list event) : list string :=
  match verdict_of seg with
  | Some _ => []
  | None =>
      match caught_of seg with
      | Some e => [comparison_error_line urlEntry e]
      | None => []
      end
  end.

(** [result.error] is set. *)
Definition has_error (r : ComparisonResult) : bool :=
  match error r with
  | Some _ => true
  | None => false
  end.

(** The part of the file-system log written between two worlds. *)
Definition fs_events_between (w w' : World) : list fs_event :=
  drop (length (fs_log w)) (fs_log w').

(** The files written in a log segment, with what was written. *)
Definition files_written (seg : list fs_event) : list (string * string) :=
  omap (fun ev => match ev with
                  | FsWriteFile p c _ => Some (p, c)
                  | _ => None
                  end) seg.

(** [pathExists] answered [false] for [path]. *)
Definition reported_missing (path : string) (seg : list fs_event) : bool :=
  existsb (fun ev => match ev with
                     | FsPathExists p (Returned false) => String.eqb p path
                     | _ => false
                     end) seg.

(** [stat] answered for [path] with a size other than 0. *)
Definition found_non_empty (path : string) (seg : list fs_event) : bool :=
  existsb (fun ev => match ev with
                     | FsStat p (Returned size) => String.eqb p path && negb (size =? 0)
                     | _ => false
                     end) seg.

(** [stat] answered for [path] with size 0. *)
Definition found_empty (path : string) (seg : list fs_event) : bool :=
  existsb (fun ev => match ev with
                     | FsStat p (Returned size) => String.eqb p path && (size =? 0)
                     | _ => false
                     end) seg.

(** The path a file-system event is about. *)
Definition path_of (ev : fs_event) : string :=
  match ev with
  | FsEnsureDir p _ => p
  | FsPathExists p _ => p
  | FsWriteFile p _ _ => p
  | FsStat p _ => p
  end.

(** Some event of the segment is about [path]. *)
Definition touches (path : string) (seg : list fs_event) : bool :=
  existsb (fun ev => String.eqb (path_of ev) path) seg.

Definition is_returned {A} (o : outcome A) : bool :=
  match o with
  | Returned _ => true
  | Threw _ => false
  end.

(** Unfolds Steps 1 and 2 down to the file system's answers. *)
Ltac unfold_files :=
  cbv beta iota zeta delta
    [step1 step2 validate_csv for_of try_catch bind ret throw modify gets
     record_error await_ensureDir await_pathExists await_writeFile await_stat
     log_fs on_tests fs_log tests negb].

(** Case analysis on every answer the file system gives along the way. *)
Ltac split_fs_answers :=
  repeat match goal with
  | |- context [ensureDir ?f ?t ?p] => destruct (ensureDir f t p) as [[]|?] eqn:?
  | |- context [pathExists ?f ?t ?p] => destruct (pathExists f t p) as [[|]|?] eqn:?
  | |- context [writeFile ?f ?t ?p ?c] => destruct (writeFile f t p c) as [[]|?] eqn:?
  | |- context [stat_size ?f ?t ?p] =>
      let sz := fresh "size" in
      destruct (stat_size f t p) as [sz|?] eqn:?;
      [destruct (Z.eqb_spec sz 0)|]
  | _ => progress cbv beta iota zeta
  end.

(** A file system where every file exists and is empty. *)
Definition empty_files : FileSystem :=
  {| ensureDir := fun _ _ => Returned tt;
     pathExists := fun _ _ => Returned true;
     writeFile := fun _ _ _ => Returned tt;
     stat_size := fun _ _ => Returned 0 |}.

(** The world right after [beforeAll]. *)
Definition fresh_world : World := {| fs_log := []; tests := fresh_suite |}.

(** The four steps as Jest runs them, each on the world the previous one
    left, whether or not it threw. *)
Definition run_all (fs : FileSystem) (env : Collaborators) (apiKey : bool)
    (source target : CsvStream) : World :=
  let w1 := snd (step1 fs apiKey fresh_world) in
  let w2 := snd (step2 fs w1) in
  let w3 := snd (in_tests (step3 env apiKey source) w2) in
  snd (in_tests (step4 env apiKey target) w3).

Definition api_key_warning : string :=
  "APPLITOOLS_API_KEY not set. Visual comparisons will be skipped.".



(** * Properties *)

(** ** One entry *)

Lemma performEyesComparison_run (env : Collaborators) (urlEntry : UrlEntry) (s : Suite) :
  exists r s',
    performEyesComparison env urlEntry s = (Returned r, s') /\
    entry_run urlEntry s r s'.
Proof.
  unfold_entry; split_answers;
    (eexists _, _; split; [reflexivity|]);
    rewrite <- ?app_assoc;
    first [ eapply run_verdict | eapply run_failure ];
    first [ reflexivity
          | repeat split; cbn; lia
          | cbn; intros; first [reflexivity | discriminate] ].
Qed.

Lemma entry_run_result (urlEntry : UrlEntry) (s s' : Suite) (r : ComparisonResult) :
  entry_run urlEntry s r s' ->
  exists seg, trace s' = trace s ++ seg /\ r = result_of_segment urlEntry seg.
Proof.
  intros [seg tr r0 -> Hv _ _ _ | seg e Hv Hc _ _ _]; exists seg; split; try reflexivity;
    unfold result_of_segment; rewrite Hv; [reflexivity | rewrite Hc; reflexivity].
Qed.

(** What one activation does to the counters of the summary. *)
Lemma entry_run_counters (urlEntry : UrlEntry) (s s' : Suite) (r : ComparisonResult) :
  entry_run urlEntry s r s' ->
  totalUrls (testSummary s') = totalUrls (testSummary s) /\
  eyesResults (testSummary s') = eyesResults (testSummary s) /\
  successfulComparisons (testSummary s')
    = successfulComparisons (testSummary s) + one_if (success r) /\
  failedComparisons (testSummary s')
    = failedComparisons (testSummary s) + one_if (negb (success r)) /\
  totalMatches (testSummary s') = totalMatches (testSummary s) + matches r /\
  totalMismatches (testSummary s') = totalMismatches (testSummary s) + mismatches r /\
  totalMissing (testSummary s') = totalMissing (testSummary s) + missing r.
Proof.
  intros [seg tr r0 -> _ _ _ _ | seg e _ _ _ _ _]; cbn.
  - unfold update_summary; cbn.
    destruct (String.eqb (getStatus tr) "Passed"); cbn; repeat split; lia.
  - repeat split; lia.
Qed.

(** The shape of every result: filled from a results object, or from a
    caught error, never from both. *)
Lemma entry_run_shape (urlEntry : UrlEntry) (s s' : Suite) (r : ComparisonResult) :
  entry_run urlEntry s r s' ->
  r_url r = url urlEntry /\ testName r = name urlEntry /\
  success r = String.eqb (status r) "Passed" /\
  ((exists tr, r = fill_from_results tr (fresh_result urlEntry)) \/
   (exists e, r = fill_from_error e (fresh_result urlEntry))).
Proof.
  intros [seg tr r0 -> _ _ _ _ | seg e _ _ _ _ _]; cbn; repeat split; eauto.
Qed.

(** ** The Step 4 loop *)

Lemma compare_loop_run (env : Collaborators) (urls : list UrlEntry) (s : Suite) :
  exists rs s',
    for_of urls (compare_and_record env) s = (Returned tt, s') /\
    batch_run urls s rs s'.
Proof.
  revert s; induction urls as [|urlEntry rest IH]; intros s.
  - exists [], s; split; [reflexivity | constructor].
  - destruct (performEyesComparison_run env urlEntry s) as (r & s1 & Hrun & Hshape).
    destruct (IH (with_summary (push_result r) s1)) as (rs & s2 & Hloop & Hbatch).
    exists (r :: rs), s2; split.
    + cbn [for_of]. unfold bind at 1. unfold compare_and_record at 1.
      unfold bind at 1. rewrite Hrun. unfold modify. exact Hloop.
    + econstructor; eassumption.
Qed.

Lemma compare_loop_cons (env : Collaborators) (urlEntry : UrlEntry) (rest : list UrlEntry)
    (s s1 : Suite) (r : ComparisonResult) :
  performEyesComparison env urlEntry s = (Returned r, s1) ->
  for_of (urlEntry :: rest) (compare_and_record env) s
    = for_of rest (compare_and_record env) (with_summary (push_result r) s1).
Proof.
  intros Hrun. cbn [for_of]. unfold bind at 1. unfold compare_and_record at 1.
  unfold bind at 1. rewrite Hrun. reflexivity.
Qed.

Lemma sum_of_cons (f : ComparisonResult -> Z) (r : ComparisonResult) (rs : list ComparisonResult) :
  sum_of f (r :: rs) = f r + sum_of f rs.
Proof. reflexivity. Qed.

Lemma sum_of_app (f : ComparisonResult -> Z) (rs1 rs2 : list ComparisonResult) :
  sum_of f (rs1 ++ rs2) = sum_of f rs1 + sum_of f rs2.
Proof.
  induction rs1 as [|r rs1 IH]; [reflexivity|].
  rewrite <- app_comm_cons, !sum_of_cons, IH. lia.
Qed.

Lemma batch_run_summary (urls : list UrlEntry) (s s' : Suite) (rs : list ComparisonResult) :
  batch_run urls s rs s' ->
  totalUrls (testSummary s') = totalUrls (testSummary s) /\
  eyesResults (testSummary s') = eyesResults (testSummary s) ++ rs /\
  successfulComparisons (testSummary s')
    = successfulComparisons (testSummary s) + count_where success rs /\
  failedComparisons (testSummary s')
    = failedComparisons (testSummary s) + count_where (fun r => negb (success r)) rs /\
  totalMatches (testSummary s') = totalMatches (testSummary s) + sum_of matches rs /\
  totalMismatches (testSummary s') = totalMismatches (testSummary s) + sum_of mismatches rs /\
  totalMissing (testSummary s') = totalMissing (testSummary s) + sum_of missing rs.
Proof.
  induction 1 as [s | urlEntry rest s s1 s2 r rs Hentry Hrest IH].
  - cbn. rewrite app_nil_r. repeat split; lia.
  - apply entry_run_counters in Hentry.
    destruct Hentry as (U & E & S & F & M1 & M2 & M3).
    destruct IH as (U' & E' & S' & F' & M1' & M2' & M3').
    cbn in U', E', S', F', M1', M2', M3'.
    unfold count_where in *. rewrite !sum_of_cons.
    rewrite U', E', S', F', M1', M2', M3', U, E, S, F, M1, M2, M3.
    rewrite <- app_assoc. cbn [app]. repeat split; lia.
Qed.

Lemma batch_run_entries (urls : list UrlEntry) (s s' : Suite) (rs : list ComparisonResult) :
  batch_run urls s rs s' ->
  map (fun r => (r_url r, testName r)) rs = map (fun e => (url e, name e)) urls /\
  Forall (fun r => success r = passed r) rs.
Proof.
  induction 1 as [s | urlEntry rest s s1 s2 r rs Hentry Hrest [IH1 IH2]].
  - split; [reflexivity | constructor].
  - apply entry_run_shape in Hentry. destruct Hentry as (Hu & Hn & Hs & _).
    split.
    + cbn. rewrite Hu, Hn, IH1. reflexivity.
    + constructor; assumption.
Qed.

Lemma count_where_split (p : ComparisonResult -> bool) (rs : list ComparisonResult) :
  count_where p rs + count_where (fun r => negb (p r)) rs = Z.of_nat (length rs).
Proof.
  unfold count_where. induction rs as [|r rs IH]; [reflexivity|].
  rewrite !sum_of_cons. cbn [length]. destruct (p r); cbn [negb one_if]; lia.
Qed.

Lemma count_where_ext (p q : ComparisonResult -> bool) (rs : list ComparisonResult) :
  Forall (fun r => p r = q r) rs -> count_where p rs = count_where q rs.
Proof.
  unfold count_where. induction 1 as [|r rs Hr _ IH]; [reflexivity|].
  rewrite !sum_of_cons, Hr, IH. reflexivity.
Qed.

(** ** Step 3 and Step 4 *)

Lemma same_counters_refl (t : TestSummary) : same_counters t t.
Proof. repeat split. Qed.

Lemma same_counters_trans (t1 t2 t3 : TestSummary) :
  same_counters t1 t2 -> same_counters t2 t3 -> same_counters t1 t3.
Proof.
  unfold same_counters. intros (A1 & A2 & A3 & A4 & A5 & A6 & A7) (B1 & B2 & B3 & B4 & B5 & B6 & B7).
  repeat split; congruence.
Qed.

Lemma establishBaseline_run (env : Collaborators) (urlEntry : UrlEntry) (s : Suite) :
  exists s',
    establishBaseline env urlEntry s = (Returned tt, s') /\
    same_counters (testSummary s) (testSummary s').
Proof.
  unfold_entry; split_answers;
    (eexists; split; [reflexivity|]); repeat split.
Qed.

Lemma baseline_loop_run (env : Collaborators) (urls : list UrlEntry) (s : Suite) :
  exists s',
    for_of urls (establishBaseline env) s = (Returned tt, s') /\
    same_counters (testSummary s) (testSummary s').
Proof.
  revert s; induction urls as [|urlEntry rest IH]; intros s.
  - exists s; split; [reflexivity | apply same_counters_refl].
  - destruct (establishBaseline_run env urlEntry s) as (s1 & Hrun & Hsame).
    destruct (IH s1) as (s2 & Hloop & Hsame').
    exists s2; split.
    + cbn [for_of]. unfold bind at 1. rewrite Hrun. exact Hloop.
    + eapply same_counters_trans; eassumption.
Qed.

Lemma step3_summary (env : Collaborators) (apiKey : bool) (source : CsvStream) (s : Suite) :
  let t := testSummary s in
  let t' := testSummary (snd (step3 env apiKey source s)) in
  totalUrls t' = totalUrls t + Z.of_nat (length (entries_of apiKey source)) /\
  eyesResults t' = eyesResults t /\
  successfulComparisons t' = successfulComparisons t /\
  failedComparisons t' = failedComparisons t /\
  totalMatches t' = totalMatches t /\
  totalMismatches t' = totalMismatches t /\
  totalMissing t' = totalMissing t.
Proof.
  cbv zeta. remember (snd (step3 env apiKey source s)) as s3 eqn:Hs3.
  unfold step3, entries_of in *. destruct apiKey; cbn [negb] in Hs3.
  - unfold try_catch, bind at 1, await_read in Hs3.
    destruct (readCsvFile source) as [urls|e].
    + unfold bind at 1, modify at 1 in Hs3.
      destruct (baseline_loop_run env urls
                  (with_summary (add_totalUrls (Z.of_nat (length urls))) s))
        as (s' & Hloop & (A1 & A2 & A3 & A4 & A5 & A6 & A7)).
      rewrite Hloop in Hs3. cbn in Hs3. subst s3.
      cbn in *. repeat split; congruence.
    + cbn in Hs3. subst s3. cbn. repeat split; lia.
  - cbn in Hs3. subst s3. cbn. repeat split; lia.
Qed.

Lemma step4_summary (env : Collaborators) (apiKey : bool) (target : CsvStream) (s : Suite) :
  exists rs,
    let t := testSummary s in
    let t' := testSummary (snd (step4 env apiKey target s)) in
    map (fun r => (r_url r, testName r)) rs
      = map (fun e => (url e, name e)) (entries_of apiKey target) /\
    Forall (fun r => success r = passed r) rs /\
    totalUrls t' = totalUrls t /\
    eyesResults t' = eyesResults t ++ rs /\
    successfulComparisons t' = successfulComparisons t + count_where success rs /\
    failedComparisons t'
      = failedComparisons t + count_where (fun r => negb (success r)) rs /\
    totalMatches t' = totalMatches t + sum_of matches rs /\
    totalMismatches t' = totalMismatches t + sum_of mismatches rs /\
    totalMissing t' = totalMissing t + sum_of missing rs.
Proof.
  remember (snd (step4 env apiKey target s)) as s4 eqn:Hs4.
  unfold step4, entries_of in *. destruct apiKey; cbn [negb] in Hs4.
  - unfold try_catch, bind at 1, await_read in Hs4.
    destruct (readCsvFile target) as [urls|e].
    + destruct (compare_loop_run env urls s) as (rs & s' & Hloop & Hbatch).
      rewrite Hloop in Hs4. cbn in Hs4. subst s4.
      exists rs. cbv zeta.
      destruct (batch_run_entries _ _ _ _ Hbatch) as [He Hp].
      pose proof (batch_run_summary _ _ _ _ Hbatch) as Hs.
      split; [exact He | split; [exact Hp | exact Hs]].
    + cbn in Hs4. subst s4.
      exists []. cbn. rewrite app_nil_r. repeat split; try lia. constructor.
  - cbn in Hs4. subst s4.
    exists []. cbn. rewrite app_nil_r. repeat split; try lia. constructor.
Qed.

Lemma batch_run_segments (urls : list UrlEntry) (s s' : Suite) (rs : list ComparisonResult) :
  batch_run urls s rs s' ->
  exists segs : list (list event),
    length segs = length urls /\
    trace s' = trace s ++ concat segs /\
    rs = zip_with result_of_segment urls segs /\
    Forall (fun r => error r = None \/ success r = false) rs.
Proof.
  induction 1 as [s | urlEntry rest s s1 s2 r rs Hentry Hrest IH].
  - exists []. cbn. rewrite app_nil_r. repeat split. constructor.
  - destruct IH as (segs & Hlen & Htrace & Hrs & Hall).
    destruct (entry_run_result _ _ _ _ Hentry) as (seg & Hseg & Hr).
    exists (seg :: segs). cbn in *.
    rewrite Hlen, Htrace, Hseg, <- app_assoc, <- Hrs, <- Hr.
    repeat split. constructor; [|exact Hall].
    destruct Hentry as [? ? ? -> _ _ _ _ | ? ? _ _ _ _ _]; cbn; auto.
Qed.

Lemma compared_alone_any_state (env : Collaborators) (urlEntry : UrlEntry) (s : Suite) :
  history_free env ->
  fst (performEyesComparison env urlEntry s) = compared_alone env urlEntry.
Proof.
  intros H. unfold compared_alone. unfold_entry. cbn [app].
  split_answers_free H; first [reflexivity | congruence].
Qed.

Lemma batch_run_alone (env : Collaborators) (urls : list UrlEntry) (s : Suite) :
  history_free env ->
  exists rs s',
    for_of urls (compare_and_record env) s = (Returned tt, s') /\
    eyesResults (testSummary s') = eyesResults (testSummary s) ++ rs /\
    map Returned rs = map (compared_alone env) urls.
Proof.
  intros H. revert s; induction urls as [|urlEntry rest IH]; intros s.
  - exists [], s. cbn. rewrite app_nil_r. repeat split.
  - destruct (performEyesComparison_run env urlEntry s) as (r & s1 & Hrun & Hentry).
    destruct (IH (with_summary (push_result r) s1)) as (rs & s2 & Hloop & Hres & Hmap).
    exists (r :: rs), s2. repeat split.
    + cbn [for_of]. unfold bind at 1. unfold compare_and_record at 1.
      unfold bind at 1. rewrite Hrun. unfold modify. exact Hloop.
    + rewrite Hres. cbn.
      destruct (entry_run_counters _ _ _ _ Hentry) as (_ & -> & _).
      rewrite <- app_assoc. reflexivity.
    + cbn [map]. rewrite <- Hmap, <- (compared_alone_any_state env urlEntry s H), Hrun.
      reflexivity.
Qed.

(** * Main results *)

(** ** Aggregation *)

(** C1, counterexample: with one entry in the source list and two in the
    target list, the run produces two results while [totalUrls] is 1. *)
Lemma aggregation_total_is_not_result_count :
  ~ aggregation_as_stated
      (testSummary (run_suite (cooperative passed_results) true
                      one_row_source two_row_target)).
Proof.
  intros (H & _). vm_compute in H. discriminate H.
Qed.

Lemma run_suite_counters (env : Collaborators) (apiKey : bool) (source target : CsvStream) :
  successfulComparisons (testSummary (run_suite env apiKey source target))
    + failedComparisons (testSummary (run_suite env apiKey source target))
    = Z.of_nat (length (eyesResults (testSummary (run_suite env apiKey source target)))) /\
  length (eyesResults (testSummary (run_suite env apiKey source target)))
    = length (entries_of apiKey target) /\
  totalMatches (testSummary (run_suite env apiKey source target))
    = sum_of matches (eyesResults (testSummary (run_suite env apiKey source target))) /\
  totalMismatches (testSummary (run_suite env apiKey source target))
    = sum_of mismatches (eyesResults (testSummary (run_suite env apiKey source target))) /\
  totalMissing (testSummary (run_suite env apiKey source target))
    = sum_of missing (eyesResults (testSummary (run_suite env apiKey source target))) /\
  totalUrls (testSummary (run_suite env apiKey source target))
    = Z.of_nat (length (entries_of apiKey source)).
Proof.
  unfold run_suite.
  set (s0 := {| trace := []; testSummary := initial_summary |}).
  pose proof (step3_summary env apiKey source s0) as H3. cbv zeta in H3.
  set (s3 := snd (step3 env apiKey source s0)) in *.
  destruct (step4_summary env apiKey target s3) as (rs & H4). cbv zeta in H4.
  set (s4 := snd (step4 env apiKey target s3)) in *.
  destruct H3 as (U3 & E3 & S3 & F3 & M3 & MM3 & MI3).
  destruct H4 as (Hmap & _ & U4 & E4 & S4 & F4 & M4 & MM4 & MI4).
  rewrite U4, E4, S4, F4, M4, MM4, MI4, U3, E3, S3, F3, M3, MM3, MI3.
  cbn [s0 testSummary initial_summary totalUrls eyesResults successfulComparisons
       failedComparisons totalMatches totalMismatches totalMissing app].
  pose proof (count_where_split success rs) as Hsplit.
  apply (f_equal (@length _)) in Hmap. rewrite !length_map in Hmap.
  rewrite Hmap in *. repeat split; lia.
Qed.

(** C1, amended: after every run of the suite the two comparison counters
    add up to the number of results, one per entry of the target list, also
    for entries that failed locally, and the three totals are the sums of the
    results' counts; [totalUrls] is the number of entries read from the
    source list in Step 3. *)
Theorem suite_aggregation (env : Collaborators) (apiKey : bool) (source target : CsvStream) :
  successfulComparisons (testSummary (run_suite env apiKey source target))
    + failedComparisons (testSummary (run_suite env apiKey source target))
    = Z.of_nat (length (eyesResults (testSummary (run_suite env apiKey source target)))) /\
  length (eyesResults (testSummary (run_suite env apiKey source target)))
    = length (entries_of apiKey target) /\
  totalMatches (testSummary (run_suite env apiKey source target))
    = sum_of matches (eyesResults (testSummary (run_suite env apiKey source target))) /\
  totalMismatches (testSummary (run_suite env apiKey source target))
    = sum_of mismatches (eyesResults (testSummary (run_suite env apiKey source target))) /\
  totalMissing (testSummary (run_suite env apiKey source target))
    = sum_of missing (eyesResults (testSummary (run_suite env apiKey source target))) /\
  totalUrls (testSummary (run_suite env apiKey source target))
    = Z.of_nat (length (entries_of apiKey source)).
Proof. exact (run_suite_counters env apiKey source target). Qed.

(** ** Order and isolation *)

(** C5: the Step 4 loop over N entries always completes and appends exactly
    N results, the i-th carrying the url and the name of the i-th entry. *)
Theorem results_follow_input_order (env : Collaborators) (urls : list UrlEntry) (s : Suite) :
  exists rs s',
    for_of urls (compare_and_record env) s = (Returned tt, s') /\
    eyesResults (testSummary s') = eyesResults (testSummary s) ++ rs /\
    length rs = length urls /\
    map (fun r => (r_url r, testName r)) rs = map (fun e => (url e, name e)) urls.
Proof.
  destruct (compare_loop_run env urls s) as (rs & s' & Hloop & Hbatch).
  exists rs, s'.
  destruct (batch_run_entries _ _ _ _ Hbatch) as [Hmap _].
  destruct (batch_run_summary _ _ _ _ Hbatch) as (_ & Hres & _).
  repeat split; try assumption.
  apply (f_equal (@length _)) in Hmap. rewrite !length_map in Hmap. exact Hmap.
Qed.




(** ** One entry: result invariant, cleanup, counters *)

Lemma events_between_app (s : Suite) (seg : list event) (t : TestSummary) :
  events_between s {| trace := trace s ++ seg; testSummary := t |} = seg.
Proof. unfold events_between. cbn [trace]. apply drop_app_length. Qed.

(** C2, counterexample: an entry whose navigation times out gets a result
    with an error message whose status is the default ["Failed"]. *)
Lemma local_failure_status_is_not_Error :
  exists r s',
    performEyesComparison (unreachable "https://bad.example" passed_results)
      bad_entry fresh_suite = (Returned r, s') /\
    error r = Some "Timeout 60000ms exceeded" /\
    status r = "Failed" /\
    ~ invariant_as_stated r (verdict_of (events_between fresh_suite s')).
Proof.
  eexists _, _. split; [vm_compute; reflexivity|].
  cbn. repeat split. intros ((_ & H) & _).
  specialize (H (ex_intro _ _ eq_refl)). discriminate H.
Qed.

(** C2, amended: every activation returns a result; it has an error message
    exactly when no results object came back from the close, and then the
    three counts are 0, there is no dashboard link, [success] is false and the
    status is still the initial ["Failed"]; with a results object the result
    carries its status and counts and no error message.  So a result with
    status ["Passed"], or with [success], never has an error message. *)
Theorem result_invariant (env : Collaborators) (urlEntry : UrlEntry) (s : Suite) :
  exists r s',
    performEyesComparison env urlEntry s = (Returned r, s') /\
    (is_Some (error r) <-> verdict_of (events_between s s') = None) /\
    (is_Some (error r) <->
     matches r = 0 /\ mismatches r = 0 /\ missing r = 0 /\
     verdict_of (events_between s s') = None) /\
    (is_Some (error r) ->
     status r = "Failed" /\ success r = false /\ appUrl r = None /\ stepsInfo r = 0) /\
    (forall tr, verdict_of (events_between s s') = Some tr ->
     error r = None /\ status r = getStatus tr /\ appUrl r = Some (getUrl tr) /\
     matches r = getMatches tr /\ mismatches r = getMismatches tr /\
     missing r = getMissing tr /\
     success r = String.eqb (getStatus tr) "Passed") /\
    (status r = "Passed" -> error r = None) /\
    (success r = true -> error r = None).
Proof.
  destruct (performEyesComparison_run env urlEntry s) as (r & s' & Hrun & Hentry).
  exists r, s'. split; [exact Hrun|].
  destruct Hentry as [seg tr r0 -> Hv _ _ _ | seg e Hv _ _ _ _];
    rewrite events_between_app, Hv; cbn.
  all: repeat split; intros;
    repeat match goal with
    | H : is_Some None |- _ => destruct H as [? H]; discriminate H
    | H : _ /\ _ |- _ => destruct H
    end;
    first [ discriminate | congruence | eauto ].
Qed.

(** C4: in every activation, a session that was opened and then met a
    throwing step (navigation, settle delay, checkpoint or close) is aborted
    exactly once; after a close that succeeded there is no abort; so an
    opened session is closed or aborted, one or the other, and without an
    open there is no abort. *)
Theorem opened_session_is_closed_or_aborted (env : Collaborators) (urlEntry : UrlEntry) (s : Suite) :
  exists r s',
    performEyesComparison env urlEntry s = (Returned r, s') /\
    ((count_events is_open_ok (events_between s s') = 1)%nat ->
     (1 <= count_events is_step_thrown (events_between s s'))%nat ->
     count_events is_abort (events_between s s') = 1%nat) /\
    ((1 <= count_events is_close_ok (events_between s s'))%nat ->
     count_events is_abort (events_between s s') = 0%nat) /\
    ((count_events is_open_ok (events_between s s') = 1)%nat ->
     (count_events is_close_ok (events_between s s')
      + count_events is_abort (events_between s s') = 1)%nat) /\
    ((count_events is_open_ok (events_between s s') = 0)%nat ->
     count_events is_abort (events_between s s') = 0%nat).
Proof.
  destruct (performEyesComparison_run env urlEntry s) as (r & s' & Hrun & Hentry).
  exists r, s'. split; [exact Hrun|].
  destruct Hentry as [seg tr r0 _ _ (D1 & D2 & D3) _ _ | seg e _ _ (D1 & D2 & D3) _ _];
    rewrite events_between_app; repeat split; lia.
Qed.

(** ** Accumulation *)

(** C8, counterexample: a results object with [matches = -3] takes
    [totalMatches] from 0 to -3; nothing is clamped. *)
Lemma negative_counts_are_not_clamped :
  exists r s',
    performEyesComparison (cooperative negative_results) good_entry fresh_suite
      = (Returned r, s') /\
    matches r = -3 /\
    totalMatches (testSummary s') = -3 /\
    ~ clamped_accumulation (testSummary fresh_suite) r (testSummary s').
Proof.
  eexists _, _. split; [vm_compute; reflexivity|].
  cbn. repeat split. intros (H & _). discriminate H.
Qed.

(** C8, amended: accumulating a result never throws, and the three counts
    of the result are added to the totals as they are, negative or not; a
    results object's counts are copied into the result unchanged. *)
Theorem accumulation_is_total_and_unclamped (env : Collaborators) (urlEntry : UrlEntry) (s : Suite) :
  exists r s',
    performEyesComparison env urlEntry s = (Returned r, s') /\
    totalMatches (testSummary s') = totalMatches (testSummary s) + matches r /\
    totalMismatches (testSummary s') = totalMismatches (testSummary s) + mismatches r /\
    totalMissing (testSummary s') = totalMissing (testSummary s) + missing r /\
    (forall tr, verdict_of (events_between s s') = Some tr ->
     matches r = getMatches tr /\ mismatches r = getMismatches tr /\
     missing r = getMissing tr).
Proof.
  destruct (performEyesComparison_run env urlEntry s) as (r & s' & Hrun & Hentry).
  exists r, s'. split; [exact Hrun|].
  destruct (entry_run_counters _ _ _ _ Hentry) as (_ & _ & _ & _ & M1 & M2 & M3).
  repeat split; try assumption.
  all: destruct Hentry as [seg tr0 r0 -> Hv _ _ _ | seg e Hv _ _ _ _];
    rewrite events_between_app, Hv in *; cbn; congruence.
Qed.

(** C9: the suite's success counter is the number of results whose status
    is ["Passed"], the failure counter is the number of all other results;
    for one entry, a results object with status ["Passed"] adds one to the
    success counter, one with any other status, ["Unresolved"] included,
    adds one to the failure counter. *)
Theorem only_Passed_counts_as_success
    (env : Collaborators) (apiKey : bool) (source target : CsvStream)
    (urlEntry : UrlEntry) (s : Suite) :
  (successfulComparisons (testSummary (run_suite env apiKey source target))
     = count_where passed (eyesResults (testSummary (run_suite env apiKey source target))) /\
   failedComparisons (testSummary (run_suite env apiKey source target))
     = Z.of_nat (length (eyesResults (testSummary (run_suite env apiKey source target))))
       - successfulComparisons (testSummary (run_suite env apiKey source target))) /\
  (exists r s',
     performEyesComparison env urlEntry s = (Returned r, s') /\
     forall tr, verdict_of (events_between s s') = Some tr ->
       status r = getStatus tr /\
       success r = String.eqb (getStatus tr) "Passed" /\
       successfulComparisons (testSummary s')
         = successfulComparisons (testSummary s)
           + one_if (String.eqb (getStatus tr) "Passed") /\
       failedComparisons (testSummary s')
         = failedComparisons (testSummary s)
           + one_if (negb (String.eqb (getStatus tr) "Passed"))).
Proof.
  split.
  - unfold run_suite.
    pose proof (step3_summary env apiKey source fresh_suite) as H3. cbv zeta in H3.
    fold fresh_suite.
    set (s3 := snd (step3 env apiKey source fresh_suite)) in *.
    destruct (step4_summary env apiKey target s3) as (rs & H4). cbv zeta in H4.
    set (s4 := snd (step4 env apiKey target s3)) in *.
    destruct H3 as (_ & E3 & S3 & F3 & _).
    destruct H4 as (_ & Hp & _ & E4 & S4 & F4 & _).
    rewrite E4, S4, F4, E3, S3, F3. cbn [fresh_suite testSummary initial_summary
      eyesResults successfulComparisons failedComparisons app].
    pose proof (count_where_split success rs) as Hsplit.
    rewrite (count_where_ext success passed rs Hp) in *. lia.
  - destruct (performEyesComparison_run env urlEntry s) as (r & s' & Hrun & Hentry).
    exists r, s'. split; [exact Hrun|].
    destruct (entry_run_counters _ _ _ _ Hentry) as (_ & _ & S & F & _).
    destruct Hentry as [seg tr0 r0 -> Hv _ _ _ | seg e Hv _ _ _ _];
      rewrite events_between_app, Hv; intros tr Htr; [|discriminate Htr].
    injection Htr as <-. rewrite S, F. cbn. repeat split.
Qed.

(** C10: when the close of an entry's session returns without a results
    object, the entry is recorded as a local failure with the message
    [No results returned from Eyes]: [success] is false, the failure counter
    goes up by one, the success counter stays, no abort is attempted, and the
    loop goes on to the remaining entries. *)
Theorem close_without_results_is_a_failure
    (env : Collaborators) (urlEntry : UrlEntry) (rest : list UrlEntry)
    (s s1 : Suite) (r : ComparisonResult) :
  performEyesComparison env urlEntry s = (Returned r, s1) ->
  count_events is_close_empty (events_between s s1) = 1%nat ->
  success r = false /\
  error r = Some "No results returned from Eyes" /\
  status r = "Failed" /\
  failedComparisons (testSummary s1) = failedComparisons (testSummary s) + 1 /\
  successfulComparisons (testSummary s1) = successfulComparisons (testSummary s) /\
  errors (testSummary s1)
    = errors (testSummary s)
      ++ ["Failed Eyes comparison for " +:+ url urlEntry
          +:+ ": Error: No results returned from Eyes"] /\
  count_events is_abort (events_between s s1) = 0%nat /\
  exists rs s2,
    for_of (urlEntry :: rest) (compare_and_record env) s = (Returned tt, s2) /\
    eyesResults (testSummary s2) = eyesResults (testSummary s) ++ r :: rs /\
    length rs = length rest.
Proof.
  intros Hrun Hempty.
  destruct (performEyesComparison_run env urlEntry s) as (r' & s' & Hrun' & Hentry).
  rewrite Hrun in Hrun'. injection Hrun' as <- <-.
  destruct (compare_loop_run env rest (with_summary (push_result r) s1))
    as (rs & s2 & Hloop & Hbatch).
  destruct (batch_run_summary _ _ _ _ Hbatch) as (_ & Hres & _).
  destruct (batch_run_entries _ _ _ _ Hbatch) as [Hmap _].
  apply (f_equal (@length _)) in Hmap. rewrite !length_map in Hmap.
  destruct (entry_run_counters _ _ _ _ Hentry) as (_ & E & _).
  cbn in Hres. rewrite E, <- app_assoc in Hres. cbn [app] in Hres.
  rewrite <- (compare_loop_cons env urlEntry rest s s1 r Hrun) in Hloop.
  destruct Hentry as [seg tr0 r0 -> Hv _ _ E0 | seg e Hv Hc (D1 & D2 & D3) Hce He];
    rewrite events_between_app in *.
  - rewrite E0 in Hempty. discriminate Hempty.
  - specialize (He Hempty). subst e.
    do 6 (split; [first [reflexivity | cbn; lia]|]).
    split; [lia|].
    exists rs, s2. repeat split; assumption.
Qed.

(** The statement above at [silent_close] and [good_entry]. *)
Lemma close_without_results_witness :
  performEyesComparison silent_close good_entry fresh_suite
    = (Returned silent_result, snd silent_run) /\
  count_events is_close_empty (events_between fresh_suite (snd silent_run)) = 1%nat /\
  success silent_result = false /\
  error silent_result = Some "No results returned from Eyes" /\
  failedComparisons (testSummary (snd silent_run)) = 1.
Proof.
  assert (H1 : performEyesComparison silent_close good_entry fresh_suite
               = (Returned silent_result, snd silent_run)) by reflexivity.
  assert (H2 : count_events is_close_empty
                 (events_between fresh_suite (snd silent_run)) = 1%nat) by reflexivity.
  destruct (close_without_results_is_a_failure silent_close good_entry [bad_entry]
              fresh_suite (snd silent_run) silent_result H1 H2)
    as (A & B & _ & D & _).
  repeat split; assumption.
Defined.

(** ** Entry reader *)

Lemma truthy_Some (v : string) : truthy (Some v) = true <-> v <> "".
Proof.
  cbn. destruct (String.eqb_spec v ""); cbn; split; intros; congruence.
Qed.

Lemma on_data_valid_row (results : list UrlEntry) (data : gmap string string) :
  on_data results data = results ++ option_list (valid_row data).
Proof.
  unfold on_data, valid_row.
  destruct (data !! "url") as [u|], (data !! "name") as [n|];
    try (cbn; rewrite app_nil_r; reflexivity).
  destruct (truthy (Some u)) eqn:Hu, (truthy (Some n)) eqn:Hn; cbn [andb];
    destruct (decide (u <> "" /\ n <> "")) as [[Hu' Hn']|Hno]; cbn;
    rewrite ?app_nil_r; try reflexivity; exfalso.
  - apply Hno. split; apply truthy_Some; assumption.
  - apply truthy_Some in Hn'. congruence.
  - apply truthy_Some in Hu'. congruence.
  - apply truthy_Some in Hu'. congruence.
Qed.

Lemma foldl_on_data (rs : list (gmap string string)) (results : list UrlEntry) :
  foldl on_data results rs = results ++ omap valid_row rs.
Proof.
  revert results; induction rs as [|data rs IH]; intros results.
  - cbn. rewrite app_nil_r. reflexivity.
  - cbn [foldl]. rewrite IH, on_data_valid_row, <- app_assoc. f_equal.
    cbn. destruct (valid_row data); reflexivity.
Qed.

Lemma valid_rows_length (rs : list (gmap string string)) :
  (length (omap valid_row rs) <= length rs)%nat.
Proof.
  induction rs as [|data rs IH]; [reflexivity|].
  cbn. destruct (valid_row data); cbn; lia.
Qed.

(** C6: reading a list that could be opened never fails on a row; the
    entries read are those of the rows with a non-empty [url] and a non-empty
    [name], in the order of the rows; every other row is dropped, is not
    counted in [totalUrls] by Step 3 and gets no result in Step 4. *)
Theorem reader_skips_incomplete_rows (env : Collaborators) (rs : list (gmap string string)) (s : Suite) :
  readCsvFile {| rows := rs; failure := None |} = Returned (omap valid_row rs) /\
  (forall e : UrlEntry,
     e ∈ omap valid_row rs <->
     exists data, data ∈ rs /\
       data !! "url" = Some (url e) /\ data !! "name" = Some (name e) /\
       url e <> "" /\ name e <> "") /\
  (length (omap valid_row rs) <= length rs)%nat /\
  totalUrls (testSummary (snd (step3 env true {| rows := rs; failure := None |} s)))
    = totalUrls (testSummary s) + Z.of_nat (length (omap valid_row rs)) /\
  exists results,
    eyesResults (testSummary (snd (step4 env true {| rows := rs; failure := None |} s)))
      = eyesResults (testSummary s) ++ results /\
    map (fun r => (r_url r, testName r)) results
      = map (fun e => (url e, name e)) (omap valid_row rs).
Proof.
  assert (Hread : readCsvFile {| rows := rs; failure := None |}
                  = Returned (omap valid_row rs)).
  { unfold readCsvFile. cbn. rewrite foldl_on_data. reflexivity. }
  split; [exact Hread|]. split; [|split; [|split]].
  - intros e. rewrite list_elem_of_omap. split.
    + intros (data & Hin & Hv). exists data. split; [exact Hin|].
      unfold valid_row in Hv.
      destruct (data !! "url") as [u|], (data !! "name") as [n|]; try discriminate.
      destruct (decide (u <> "" /\ n <> "")) as [[Hu Hn]|]; [|discriminate].
      injection Hv as <-. cbn. repeat split; assumption.
    + intros (data & Hin & Hu & Hn & Hu' & Hn'). exists data. split; [exact Hin|].
      unfold valid_row. rewrite Hu, Hn.
      destruct (decide (url e <> "" /\ name e <> "")) as [|Hno]; [|tauto].
      destruct e; reflexivity.
  - apply valid_rows_length.
  - pose proof (step3_summary env true {| rows := rs; failure := None |} s) as H3.
    cbv zeta in H3. destruct H3 as (H3 & _). rewrite H3.
    unfold entries_of. rewrite Hread. reflexivity.
  - destruct (step4_summary env true {| rows := rs; failure := None |} s) as (results & H4).
    cbv zeta in H4. destruct H4 as (Hmap & _ & _ & Hres & _).
    exists results. split; [exact Hres|].
    rewrite Hmap. unfold entries_of. rewrite Hread. reflexivity.
Qed.

(** ** Success rate *)

(** C7: the rate shown is [toFixed(2)] of (successful / total) * 100,
    computed in floating point, the total being successful + failed, which
    after every run is the number of results produced; with a total of 0, and
    so after every run over an empty target list, the report shows [0%]
    without dividing. *)
Theorem success_rate_of_empty_batch_is_zero (toFixed2 : PrimFloat.float -> string) (t : TestSummary) :
  (0 < successfulComparisons t + failedComparisons t ->
   successRate toFixed2 t
     = toFixed2
         (PrimFloat.mul
            (PrimFloat.div
               (number_of_count (successfulComparisons t))
               (number_of_count (successfulComparisons t + failedComparisons t)))
            (number_of_count 100))) /\
  (successfulComparisons t + failedComparisons t = 0 ->
   successRate toFixed2 t = "0" /\
   success_rate_line toFixed2 t = "- **Success Rate**: 0%") /\
  (forall env apiKey source target,
     successfulComparisons (testSummary (run_suite env apiKey source target))
       + failedComparisons (testSummary (run_suite env apiKey source target))
     = Z.of_nat (length (eyesResults (testSummary (run_suite env apiKey source target))))) /\
  (forall env apiKey source target,
     entries_of apiKey target = [] ->
     success_rate_line toFixed2 (testSummary (run_suite env apiKey source target))
       = "- **Success Rate**: 0%").
Proof.
  assert (Hzero : forall t0, successfulComparisons t0 + failedComparisons t0 = 0 ->
            successRate toFixed2 t0 = "0" /\
            success_rate_line toFixed2 t0 = "- **Success Rate**: 0%").
  { intros t0 H0. unfold success_rate_line, successRate, totalComparisons.
    rewrite H0. cbn. split; reflexivity. }
  split; [|split; [|split]].
  - intros Hpos. unfold successRate, totalComparisons, percentage.
    destruct (Z.gtb_spec (successfulComparisons t + failedComparisons t) 0) as [_|Hle];
      [reflexivity | lia].
  - apply Hzero.
  - intros env apiKey source target.
    exact (proj1 (run_suite_counters env apiKey source target)).
  - intros env apiKey source target Hempty. apply Hzero.
    destruct (run_suite_counters env apiKey source target) as (Hsum & Hlen & _).
    rewrite Hsum, Hlen, Hempty. reflexivity.
Qed.

(** ** Worked runs *)

(** A reachable page that passes, then a page whose navigation times out. *)
Example good_then_bad :
  let t := testSummary (run_suite (unreachable "https://bad.example" passed_results)
                          true two_row_target two_row_target) in
  map status (eyesResults t) = ["Passed"; "Failed"] /\
  map error (eyesResults t) = [None; Some "Timeout 60000ms exceeded"] /\
  (totalUrls t, successfulComparisons t, failedComparisons t) = (2, 1, 1) /\
  (totalMatches t, totalMismatches t, totalMissing t) = (1, 0, 0).
Proof. vm_compute. repeat split. Qed.

(** The failing entry first: the next entry still passes. *)
Example bad_then_good :
  map (fun r => (testName r, status r, success r))
    (eyesResults (testSummary (snd (step4 (unreachable "https://bad.example" passed_results)
       true
       {| rows := [row "https://bad.example" "Bad"; row "https://good.example" "Good"];
          failure := None |}
       fresh_suite))))
  = [("Bad", "Failed", false); ("Good", "Passed", true)].
Proof. vm_compute. reflexivity. Qed.

Example unresolved_counts_as_failed :
  let t := testSummary (snd (performEyesComparison (cooperative unresolved_results)
                               good_entry fresh_suite)) in
  (successfulComparisons t, failedComparisons t) = (0, 1).
Proof. vm_compute. reflexivity. Qed.

(** A row without a name and a row with an empty url are dropped. *)
Example incomplete_rows_dropped :
  readCsvFile {| rows := [row "https://good.example" "Good";
                          <["url" := "https://no-name.example"]> ∅;
                          row "" "Empty";
                          row "https://bad.example" "Bad"];
                 failure := None |}
  = Returned [good_entry; bad_entry].
Proof. vm_compute. reflexivity. Qed.

Example unreachable_is_history_free (bad : string) (tr : TestResults) :
  history_free (unreachable bad tr).
Proof. intros t. repeat split. Qed.

(** An error of the parser stops Step 4 before any entry is compared. *)
Example parser_error_fails_step4 :
  step4 (cooperative passed_results) true
    {| rows := []; failure := Some (ErrorObject "Error" "Row exceeds the maximum size") |}
    fresh_suite
  = (Threw (new_Error
              "Failed to perform visual comparison: Error: Row exceeds the maximum size"),
     with_summary
       (push_error
          "Failed to perform visual comparison: Error: Row exceeds the maximum size")
       fresh_suite).
Proof. vm_compute. reflexivity. Qed.

(** * Further properties *)

(** ** Baselines *)

(** X1: establishing a baseline never throws and changes no counter and no
    result of the summary; it records one error line, naming the url and the
    error, exactly when a call of its [try] block threw, and none otherwise,
    also when the close returns no results object. *)
Theorem establishBaseline_records_only_errors (env : Collaborators) (urlEntry : UrlEntry) (s : Suite) :
  exists s',
    establishBaseline env urlEntry s = (Returned tt, s') /\
    same_counters (testSummary s) (testSummary s') /\
    errors (testSummary s')
      = errors (testSummary s)
        ++ match thrown_in_try (events_between s s') with
           | Some e => [baseline_error_line urlEntry e]
           | None => []
           end /\
    (thrown_in_try (events_between s s') = None <->
     count_events is_close_ok (events_between s s') = 1%nat).
Proof.
  unfold_entry; split_answers;
    (eexists; split; [reflexivity|]);
    rewrite <- ?app_assoc, events_between_app;
    (split; [repeat split|]); cbn;
    rewrite ?app_nil_r; (split; [reflexivity|]);
    split; intros; first [reflexivity | discriminate].
Qed.

(** X2: in every baseline activation at most one session is opened, an
    opened session is closed or aborted, exactly one of the two, and there is
    no abort after a close that succeeded. *)
Theorem baseline_session_is_closed_or_aborted (env : Collaborators) (urlEntry : UrlEntry) (s : Suite) :
  exists s',
    establishBaseline env urlEntry s = (Returned tt, s') /\
    session_discipline (events_between s s') /\
    ((1 <= count_events is_close_ok (events_between s s'))%nat ->
     count_events is_abort (events_between s s') = 0%nat).
Proof.
  unfold_entry; split_answers;
    (eexists; split; [reflexivity|]);
    rewrite <- ?app_assoc, events_between_app;
    unfold session_discipline; cbn; repeat split; intros; lia.
Qed.

(** ** Order of the calls *)

(** X3: the calls of a comparison happen in program order and stop at the
    first one that throws: the log of the [try] block is a prefix of new page
    and viewport (only when the page is unusable), open, goto, settle delay,
    check, close; every call before its last returned normally; after it
    comes nothing, or the one abort. *)
Theorem comparison_calls_follow_program_order (env : Collaborators) (urlEntry : UrlEntry) (s : Suite) :
  exists r s',
    performEyesComparison env urlEntry s = (Returned r, s') /\
    map label_of (fst (until_abort (events_between s s')))
      `prefix_of` comparison_steps urlEntry (page_unusable env (trace s)) /\
    forallb returned_normally (removelast (fst (until_abort (events_between s s')))) = true /\
    (snd (until_abort (events_between s s')) = [] \/
     exists a, snd (until_abort (events_between s s')) = [Called EyesAbortIfNotClosed a]).
Proof.
  unfold comparison_steps.
  unfold_entry; split_answers;
    (eexists _, _; split; [reflexivity|]);
    rewrite <- ?app_assoc, events_between_app; cbn;
    (split; [eexists; reflexivity|]);
    (split; [reflexivity|]);
    first [left; reflexivity | right; eexists; reflexivity].
Qed.

(** ** Sessions across the suite *)

Lemma sessions_app (opened : bool) (l1 l2 : list event) :
  sessions opened (l1 ++ l2)
  = match sessions opened l1 with
    | Some opened' => sessions opened' l2
    | None => None
    end.
Proof.
  revert opened; induction l1 as [|ev l1 IH]; intros opened; [reflexivity|].
  cbn. destruct (session_step opened ev); [apply IH | reflexivity].
Qed.

Lemma performEyesComparison_sessions (env : Collaborators) (urlEntry : UrlEntry) (s : Suite) :
  exists r s' seg,
    performEyesComparison env urlEntry s = (Returned r, s') /\
    trace s' = trace s ++ seg /\
    sessions false seg = Some false.
Proof.
  unfold_entry; split_answers;
    (eexists _, _, _; split; [reflexivity|]);
    rewrite <- ?app_assoc; split; reflexivity.
Qed.

Lemma establishBaseline_sessions (env : Collaborators) (urlEntry : UrlEntry) (s : Suite) :
  exists s' seg,
    establishBaseline env urlEntry s = (Returned tt, s') /\
    trace s' = trace s ++ seg /\
    sessions false seg = Some false.
Proof.
  unfold_entry; split_answers;
    (eexists _, _; split; [reflexivity|]);
    rewrite <- ?app_assoc; split; reflexivity.
Qed.

Lemma compare_loop_sessions (env : Collaborators) (urls : list UrlEntry) (s : Suite) :
  exists s' seg,
    for_of urls (compare_and_record env) s = (Returned tt, s') /\
    trace s' = trace s ++ seg /\
    sessions false seg = Some false.
Proof.
  revert s; induction urls as [|urlEntry rest IH]; intros s.
  - exists s, []. rewrite app_nil_r. repeat split.
  - destruct (performEyesComparison_sessions env urlEntry s) as (r & s1 & seg & Hrun & Ht & Hs).
    destruct (IH (with_summary (push_result r) s1)) as (s2 & seg' & Hloop & Ht' & Hs').
    exists s2, (seg ++ seg'). split; [|split].
    + rewrite (compare_loop_cons env urlEntry rest s s1 r Hrun). exact Hloop.
    + rewrite Ht'. cbn. rewrite Ht, app_assoc. reflexivity.
    + rewrite sessions_app, Hs. exact Hs'.
Qed.

Lemma baseline_loop_sessions (env : Collaborators) (urls : list UrlEntry) (s : Suite) :
  exists s' seg,
    for_of urls (establishBaseline env) s = (Returned tt, s') /\
    trace s' = trace s ++ seg /\
    sessions false seg = Some false.
Proof.
  revert s; induction urls as [|urlEntry rest IH]; intros s.
  - exists s, []. rewrite app_nil_r. repeat split.
  - destruct (establishBaseline_sessions env urlEntry s) as (s1 & seg & Hrun & Ht & Hs).
    destruct (IH s1) as (s2 & seg' & Hloop & Ht' & Hs').
    exists s2, (seg ++ seg'). split; [|split].
    + cbn [for_of]. unfold bind at 1. rewrite Hrun. exact Hloop.
    + rewrite Ht', Ht, app_assoc. reflexivity.
    + rewrite sessions_app, Hs. exact Hs'.
Qed.

Lemma step3_sessions (env : Collaborators) (apiKey : bool) (source : CsvStream) (s : Suite) :
  exists seg,
    trace (snd (step3 env apiKey source s)) = trace s ++ seg /\
    sessions false seg = Some false.
Proof.
  remember (snd (step3 env apiKey source s)) as s3 eqn:Hs3.
  unfold step3 in Hs3. destruct apiKey; cbn [negb] in Hs3.
  - unfold try_catch, bind at 1, await_read in Hs3.
    destruct (readCsvFile source) as [urls|e].
    + unfold bind at 1, modify at 1 in Hs3.
      destruct (baseline_loop_sessions env urls
                  (with_summary (add_totalUrls (Z.of_nat (length urls))) s))
        as (s' & seg & Hloop & Ht & Hs).
      rewrite Hloop in Hs3. cbn in Hs3. subst s3. exists seg. split; assumption.
    + cbn in Hs3. subst s3. exists []. cbn. rewrite app_nil_r. split; reflexivity.
  - cbn in Hs3. subst s3. exists []. rewrite app_nil_r. split; reflexivity.
Qed.

Lemma step4_sessions (env : Collaborators) (apiKey : bool) (target : CsvStream) (s : Suite) :
  exists seg,
    trace (snd (step4 env apiKey target s)) = trace s ++ seg /\
    sessions false seg = Some false.
Proof.
  remember (snd (step4 env apiKey target s)) as s4 eqn:Hs4.
  unfold step4 in Hs4. destruct apiKey; cbn [negb] in Hs4.
  - unfold try_catch, bind at 1, await_read in Hs4.
    destruct (readCsvFile target) as [urls|e].
    + destruct (compare_loop_sessions env urls s) as (s' & seg & Hloop & Ht & Hs).
      rewrite Hloop in Hs4. cbn in Hs4. subst s4. exists seg. split; assumption.
    + cbn in Hs4. subst s4. exists []. cbn. rewrite app_nil_r. split; reflexivity.
  - cbn in Hs4. subst s4. exists []. rewrite app_nil_r. split; reflexivity.
Qed.

(** X4: over the whole suite, Step 3 and Step 4 together, the collaborator
    calls respect the session protocol: a session is opened only when none is
    open, navigation, settle delay, checkpoint, close and abort happen only
    inside an open session, a new page is created only outside one, and when
    the suite ends no session is left open. *)
Theorem suite_sessions_never_overlap_or_dangle
    (env : Collaborators) (apiKey : bool) (source target : CsvStream) :
  sessions false (trace (run_suite env apiKey source target)) = Some false.
Proof.
  unfold run_suite. fold fresh_suite.
  destruct (step3_sessions env apiKey source fresh_suite) as (seg3 & Ht3 & Hs3).
  destruct (step4_sessions env apiKey target (snd (step3 env apiKey source fresh_suite)))
    as (seg4 & Ht4 & Hs4).
  rewrite Ht4, Ht3. cbn [fresh_suite trace app].
  rewrite sessions_app, Hs3. exact Hs4.
Qed.

(** ** The error list *)

Lemma entry_run_errors (urlEntry : UrlEntry) (s s' : Suite) (r : ComparisonResult) :
  entry_run urlEntry s r s' ->
  exists seg,
    trace s' = trace s ++ seg /\
    r = result_of_segment urlEntry seg /\
    errors (testSummary s') = errors (testSummary s) ++ comparison_error_lines urlEntry seg /\
    length (comparison_error_lines urlEntry seg) = Z.to_nat (one_if (has_error r)).
Proof.
  intros [seg tr r0 -> Hv _ _ _ | seg e Hv Hc _ _ _]; exists seg;
    unfold result_of_segment, comparison_error_lines; rewrite Hv, ?Hc; cbn.
  - unfold update_summary. destruct (String.eqb (getStatus tr) "Passed"); cbn;
      rewrite app_nil_r; repeat split.
  - repeat split.
Qed.

Lemma batch_run_errors (urls : list UrlEntry) (s s' : Suite) (rs : list ComparisonResult) :
  batch_run urls s rs s' ->
  exists segs : list (list event),
    length segs = length urls /\
    trace s' = trace s ++ concat segs /\
    rs = zip_with result_of_segment urls segs /\
    errors (testSummary s')
      = errors (testSummary s) ++ concat (zip_with comparison_error_lines urls segs) /\
    Z.of_nat (length (errors (testSummary s')))
      = Z.of_nat (length (errors (testSummary s))) + count_where has_error rs.
Proof.
  induction 1 as [s | urlEntry rest s s1 s2 r rs Hentry Hrest IH].
  - exists []. cbn. rewrite !app_nil_r. repeat split. unfold count_where. cbn. lia.
  - destruct IH as (segs & Hlen & Htrace & Hrs & Herr & Hcount).
    destruct (entry_run_errors _ _ _ _ Hentry) as (seg & Hseg & Hr & He & Hl).
    exists (seg :: segs). cbn [length concat zip_with] in *.
    cbn [with_summary push_result testSummary trace errors] in Htrace, Herr, Hcount.
    rewrite Hlen, Htrace, Hseg, <- app_assoc, <- Hrs, <- Hr.
    repeat split.
    + rewrite Herr, He, <- app_assoc. reflexivity.
    + rewrite Hcount, He, length_app, Hl. unfold count_where. rewrite sum_of_cons.
      destruct (has_error r); cbn [one_if Z.to_nat]; lia.
Qed.

Lemma failed_split (rs : list ComparisonResult) :
  Forall (fun r => success r = passed r) rs ->
  Forall (fun r => error r = None \/ success r = false) rs ->
  count_where (fun r => negb (success r)) rs
  = count_where has_error rs
    + count_where (fun r => negb (has_error r) && negb (passed r)) rs.
Proof.
  unfold count_where. induction 1 as [|r rs Hr _ IH]; intros Hall; [reflexivity|].
  inversion Hall as [|? ? Hor Hall']; subst.
  rewrite !sum_of_cons, (IH Hall'). unfold has_error.
  destruct Hor as [-> | Hs].
  - rewrite Hr. cbn. lia.
  - rewrite <- Hr, Hs. destruct (error r); cbn; lia.
Qed.

(** X5: after the comparison loop the error list has grown by exactly one
    line per entry that ended without a results object, in the order of the
    entries, each naming the entry's url and the error caught; entries with a
    verdict add none.  The failure counter grows by the number of these local
    failures plus the number of verdicts other than ["Passed"]. *)
Theorem comparison_loop_error_list (env : Collaborators) (urls : list UrlEntry) (s : Suite) :
  exists rs segs s',
    for_of urls (compare_and_record env) s = (Returned tt, s') /\
    length segs = length urls /\
    trace s' = trace s ++ concat segs /\
    rs = zip_with result_of_segment urls segs /\
    errors (testSummary s')
      = errors (testSummary s) ++ concat (zip_with comparison_error_lines urls segs) /\
    Z.of_nat (length (errors (testSummary s')))
      = Z.of_nat (length (errors (testSummary s))) + count_where has_error rs /\
    failedComparisons (testSummary s')
      = failedComparisons (testSummary s)
        + count_where has_error rs
        + count_where (fun r => negb (has_error r) && negb (passed r)) rs.
Proof.
  destruct (compare_loop_run env urls s) as (rs & s' & Hloop & Hbatch).
  destruct (batch_run_errors _ _ _ _ Hbatch) as (segs & Hlen & Htrace & Hrs & Herr & Hcount).
  destruct (batch_run_summary _ _ _ _ Hbatch) as (_ & _ & _ & Hfailed & _).
  destruct (batch_run_entries _ _ _ _ Hbatch) as [_ Hpassed].
  destruct (batch_run_segments _ _ _ _ Hbatch) as (_ & _ & _ & _ & Hshape).
  exists rs, segs, s'. repeat split; try assumption.
  rewrite Hfailed, (failed_split rs Hpassed Hshape). lia.
Qed.

(** ** When the steps fail *)

Lemma step4_outcome
    (env : Collaborators) (apiKey : bool) (target : CsvStream) (s : Suite) :
  match fst (step4 env apiKey target s) with
  | Returned _ => apiKey = false \/ failure target = None
  | Threw e =>
      apiKey = true /\
      exists e0,
        failure target = Some e0 /\
        e = new_Error ("Failed to perform visual comparison: " +:+ to_String e0) /\
        snd (step4 env apiKey target s)
          = with_summary
              (push_error ("Failed to perform visual comparison: " +:+ to_String e0)) s
  end.
Proof.
  unfold step4. destruct apiKey; cbn [negb]; [|left; reflexivity].
  unfold try_catch, bind at 1, await_read, readCsvFile.
  destruct (failure target) as [e0|].
  - cbn. split; [reflexivity|]. exists e0. repeat split.
  - fold (readCsvFile {| rows := rows target; failure := None |}).
    destruct (compare_loop_run env (foldl on_data [] (rows target)) s)
      as (rs & s' & -> & _).
    right; reflexivity.
Qed.

Lemma step3_outcome
    (env : Collaborators) (apiKey : bool) (source : CsvStream) (s : Suite) :
  match fst (step3 env apiKey source s) with
  | Returned _ => apiKey = false \/ failure source = None
  | Threw e =>
      apiKey = true /\
      exists e0,
        failure source = Some e0 /\
        e = new_Error ("Failed to establish baselines: " +:+ to_String e0) /\
        snd (step3 env apiKey source s)
          = with_summary
              (push_error ("Failed to establish baselines: " +:+ to_String e0)) s
  end.
Proof.
  unfold step3. destruct apiKey; cbn [negb]; [|left; reflexivity].
  unfold try_catch, bind at 1, await_read, readCsvFile.
  destruct (failure source) as [e0|].
  - cbn. split; [reflexivity|]. exists e0. repeat split.
  - unfold bind at 1, modify at 1.
    destruct (baseline_loop_run env (foldl on_data [] (rows source))
                (with_summary
                   (add_totalUrls (Z.of_nat (length (foldl on_data [] (rows source))))) s))
      as (s' & -> & _).
    right; reflexivity.
Qed.

(** X6: Step 4 throws only when an API key is set and the parser of the
    target list emits ['error']; it then throws an [Error] that wraps the
    parser's error, records the same line once, compares nothing and calls no
    collaborator.  No failure of an entry makes Step 4 throw.  When the target
    file itself cannot be read, Step 4 neither returns nor throws and nothing
    is recorded. *)
Theorem step4_throws_only_on_parser_error
    (env : Collaborators) (apiKey : bool) (target : list_file) (s : Suite) :
  match fst (step4_from env apiKey target s) with
  | Some (Returned _) =>
      apiKey = false \/ exists stream, target = Readable stream /\ failure stream = None
  | Some (Threw e) =>
      apiKey = true /\
      exists stream e0,
        target = Readable stream /\
        failure stream = Some e0 /\
        e = new_Error ("Failed to perform visual comparison: " +:+ to_String e0) /\
        snd (step4_from env apiKey target s)
          = with_summary
              (push_error ("Failed to perform visual comparison: " +:+ to_String e0)) s
  | None =>
      apiKey = true /\ target = Unreadable /\ snd (step4_from env apiKey target s) = s
  end.
Proof.
  destruct target as [stream|]; cbn [step4_from].
  - pose proof (step4_outcome env apiKey stream s) as H.
    destruct (step4 env apiKey stream s) as [[u|e] s']; cbn [fst snd] in *.
    + destruct H as [H|H]; [left; exact H | right; exists stream; split; [reflexivity | exact H]].
    + destruct H as (Hk & e0 & Hf & He & Hs). split; [exact Hk|].
      exists stream, e0. repeat split; assumption.
  - destruct apiKey; cbn; [repeat split | left; reflexivity].
Qed.

(** X7: Step 3 throws only when an API key is set and the parser of the
    source list emits ['error']; it then throws an [Error] that wraps the
    parser's error, records the same line once and leaves [totalUrls] and
    every other counter as they were.  No failure of a baseline makes Step 3
    throw.  When the source file itself cannot be read, Step 3 neither returns
    nor throws and nothing is recorded. *)
Theorem step3_throws_only_on_parser_error
    (env : Collaborators) (apiKey : bool) (source : list_file) (s : Suite) :
  match fst (step3_from env apiKey source s) with
  | Some (Returned _) =>
      apiKey = false \/ exists stream, source = Readable stream /\ failure stream = None
  | Some (Threw e) =>
      apiKey = true /\
      exists stream e0,
        source = Readable stream /\
        failure stream = Some e0 /\
        e = new_Error ("Failed to establish baselines: " +:+ to_String e0) /\
        snd (step3_from env apiKey source s)
          = with_summary
              (push_error ("Failed to establish baselines: " +:+ to_String e0)) s
  | None =>
      apiKey = true /\ source = Unreadable /\ snd (step3_from env apiKey source s) = s
  end.
Proof.
  destruct source as [stream|]; cbn [step3_from].
  - pose proof (step3_outcome env apiKey stream s) as H.
    destruct (step3 env apiKey stream s) as [[u|e] s']; cbn [fst snd] in *.
    + destruct H as [H|H]; [left; exact H | right; exists stream; split; [reflexivity | exact H]].
    + destruct H as (Hk & e0 & Hf & He & Hs). split; [exact Hk|].
      exists stream, e0. repeat split; assumption.
  - destruct apiKey; cbn; [repeat split | left; reflexivity].
Qed.

(** ** Reading row by row *)

(** X8: rows are judged one by one: the entries of two row lists read one
    after the other are the entries of the first followed by those of the
    second, duplicates included; and when the stream ends in an error the
    read is rejected with that error whatever rows were delivered. *)
Theorem reading_is_row_by_row (rs1 rs2 : list (gmap string string)) (e : thrown) :
  (exists e1 e2,
     readCsvFile {| rows := rs1; failure := None |} = Returned e1 /\
     readCsvFile {| rows := rs2; failure := None |} = Returned e2 /\
     readCsvFile {| rows := rs1 ++ rs2; failure := None |} = Returned (e1 ++ e2)) /\
  readCsvFile {| rows := rs1; failure := Some e |} = Threw e.
Proof.
  split; [|reflexivity].
  exists (omap valid_row rs1), (omap valid_row rs2).
  unfold readCsvFile. cbn. rewrite !foldl_on_data, omap_app. repeat split.
Qed.

(** ** Steps 1 and 2 *)

Lemma fs_events_between_app (w : World) (seg : list fs_event) (s : Suite) :
  fs_events_between w {| fs_log := fs_log w ++ seg; tests := s |} = seg.
Proof. unfold fs_events_between. cbn [fs_log]. apply drop_app_length. Qed.

(** X9: validating one list file writes at most one file: the sample
    content, to the path being validated, and only after [pathExists]
    answered that the file is missing; an existing file is never written. *)
Theorem sample_written_only_when_missing (fs : FileSystem) (csvFile : string) (w : World) :
  files_written (fs_events_between w (snd (validate_csv fs csvFile w)))
  = if reported_missing csvFile (fs_events_between w (snd (validate_csv fs csvFile w)))
    then [(csvFile, sampleContent)]
    else [].
Proof.
  unfold_files; split_fs_answers; cbn [snd];
    rewrite <- ?app_assoc, fs_events_between_app; cbn;
    rewrite ?String.eqb_refl; reflexivity.
Qed.

(** X10: an empty list file is recorded twice: validating a file whose
    size is 0 pushes [CSV file is empty: f] and then, from the enclosing
    catch, [Failed to validate CSV file: f - Error: CSV file is empty: f],
    and throws an [Error] with the second message. *)
Theorem empty_csv_is_recorded_twice (fs : FileSystem) (csvFile : string) (w : World) :
  found_empty csvFile (fs_events_between w (snd (validate_csv fs csvFile w))) = true ->
  fst (validate_csv fs csvFile w)
    = Threw (new_Error ("Failed to validate CSV file: " +:+ csvFile
                        +:+ " - Error: CSV file is empty: " +:+ csvFile)) /\
  errors (testSummary (tests (snd (validate_csv fs csvFile w))))
    = errors (testSummary (tests w))
      ++ ["CSV file is empty: " +:+ csvFile;
          "Failed to validate CSV file: " +:+ csvFile
          +:+ " - Error: CSV file is empty: " +:+ csvFile].
Proof.
  unfold_files; split_fs_answers; cbn [fst snd];
    rewrite <- ?app_assoc, fs_events_between_app; cbn;
    rewrite ?String.eqb_refl; cbn; intros Hfound; try discriminate Hfound.
  all: try (destruct (Z.eqb_spec size 0); [lia | discriminate Hfound]).
  all: split; [reflexivity|]; rewrite <- app_assoc; reflexivity.
Qed.

Lemma empty_csv_is_recorded_twice_witness :
  found_empty csvFiles_source
    (fs_events_between fresh_world (snd (validate_csv empty_files csvFiles_source fresh_world)))
    = true /\
  errors (testSummary (tests (snd (validate_csv empty_files csvFiles_source fresh_world))))
  = ["CSV file is empty: ./source.csv";
     "Failed to validate CSV file: ./source.csv - Error: CSV file is empty: ./source.csv"].
Proof.
  assert (H : found_empty csvFiles_source
                (fs_events_between fresh_world
                   (snd (validate_csv empty_files csvFiles_source fresh_world))) = true)
    by reflexivity.
  split; [exact H|].
  exact (proj2 (empty_csv_is_recorded_twice empty_files csvFiles_source fresh_world H)).
Defined.

(** X11: Step 2 checks the source file, then the target file, and stops at
    the first one that fails: it returns normally exactly when both were found
    with a size other than 0, it touches the target file only after the
    source file passed, it records an error exactly when it throws, and it
    changes no counter and calls no collaborator. *)
Theorem step2_stops_at_first_bad_file (fs : FileSystem) (w : World) :
  is_returned (fst (step2 fs w))
    = found_non_empty csvFiles_source (fs_events_between w (snd (step2 fs w)))
      && found_non_empty csvFiles_target (fs_events_between w (snd (step2 fs w))) /\
  (touches csvFiles_target (fs_events_between w (snd (step2 fs w))) = true ->
   found_non_empty csvFiles_source (fs_events_between w (snd (step2 fs w))) = true) /\
  (is_returned (fst (step2 fs w)) = true <->
   length (errors (testSummary (tests (snd (step2 fs w)))))
   = length (errors (testSummary (tests w)))) /\
  trace (tests (snd (step2 fs w))) = trace (tests w) /\
  same_counters (testSummary (tests w)) (testSummary (tests (snd (step2 fs w)))).
Proof.
  unfold_files; split_fs_answers; cbn [fst snd];
    rewrite <- ?app_assoc, ?fs_events_between_app;
    unfold same_counters; cbn;
    rewrite ?length_app; cbn;
    repeat match goal with
    | H : ?sz <> 0 |- context [?sz =? 0] =>
        destruct (Z.eqb_spec sz 0); [contradiction|]
    end; cbn;
    repeat split; intros; try reflexivity; try discriminate; try lia.
Qed.

(** X12: Step 1 makes one file-system call, creating the results
    directory.  A missing API key only adds a warning to the error list; the
    step throws exactly when the directory cannot be created, and then
    records that error after the warning. *)
Theorem step1_missing_key_only_warns (fs : FileSystem) (apiKey : bool) (w : World) :
  fs_events_between w (snd (step1 fs apiKey w))
    = [FsEnsureDir directories_results (ensureDir fs (fs_log w) directories_results)] /\
  fst (step1 fs apiKey w)
    = match ensureDir fs (fs_log w) directories_results with
      | Returned _ => Returned tt
      | Threw e => Threw (new_Error ("Failed to create results directory: " +:+ to_String e))
      end /\
  errors (testSummary (tests (snd (step1 fs apiKey w))))
    = errors (testSummary (tests w))
      ++ (if apiKey then [] else [api_key_warning])
      ++ match ensureDir fs (fs_log w) directories_results with
         | Returned _ => []
         | Threw e => ["Failed to create results directory: " +:+ to_String e]
         end /\
  trace (tests (snd (step1 fs apiKey w))) = trace (tests w) /\
  same_counters (testSummary (tests w)) (testSummary (tests (snd (step1 fs apiKey w)))).
Proof.
  unfold same_counters, api_key_warning.
  destruct apiKey; unfold_files; split_fs_answers; cbn [fst snd];
    rewrite ?fs_events_between_app; cbn;
    rewrite <- ?app_assoc, ?app_nil_r; repeat split.
Qed.

(** X13: without an API key the whole suite calls no collaborator and
    produces no result; every counter stays 0; the error list starts with the
    API-key warning; the report shows a success rate of [0%] and the console
    summary [0/0]. *)
Theorem suite_without_api_key_compares_nothing
    (fs : FileSystem) (env : Collaborators) (source target : CsvStream)
    (toFixed2 : PrimFloat.float -> string) :
  trace (tests (run_all fs env false source target)) = [] /\
  eyesResults (testSummary (tests (run_all fs env false source target))) = [] /\
  totalUrls (testSummary (tests (run_all fs env false source target))) = 0 /\
  successfulComparisons (testSummary (tests (run_all fs env false source target))) = 0 /\
  failedComparisons (testSummary (tests (run_all fs env false source target))) = 0 /\
  totalMatches (testSummary (tests (run_all fs env false source target))) = 0 /\
  totalMismatches (testSummary (tests (run_all fs env false source target))) = 0 /\
  totalMissing (testSummary (tests (run_all fs env false source target))) = 0 /\
  (exists rest,
     errors (testSummary (tests (run_all fs env false source target)))
     = api_key_warning :: rest) /\
  success_rate_line toFixed2 (testSummary (tests (run_all fs env false source target)))
    = "- **Success Rate**: 0%" /\
  console_summary_line (testSummary (tests (run_all fs env false source target)))
    = "Visual Tests: 0/0 successful".
Proof.
  unfold run_all, in_tests, step3, step4, fresh_world, fresh_suite, api_key_warning.
  cbn [negb ret snd].
  unfold_files; split_fs_answers; cbn;
    repeat split; eexists; reflexivity.
Qed.

(** ** The report *)

Lemma count_where_nonneg (p : ComparisonResult -> bool) (rs : list ComparisonResult) :
  0 <= count_where p rs.
Proof.
  unfold count_where. induction rs as [|r rs IH]; [cbn; lia|].
  rewrite sum_of_cons. destruct (p r); cbn [one_if]; lia.
Qed.

(** X15: the block the report prints for a result never shows both a
    dashboard link and an error: the link line is printed only for a result
    with a verdict, the error line only for a local failure, and an error
    whose message is empty prints no error line at all. *)
Theorem report_block_shows_link_or_error (env : Collaborators) (urlEntry : UrlEntry) (s : Suite) :
  exists r s',
    performEyesComparison env urlEntry s = (Returned r, s') /\
    (link_line r = "" \/ error_line r = "") /\
    (link_line r <> "" <->
     exists tr, verdict_of (events_between s s') = Some tr /\ getUrl tr <> "") /\
    (error_line r <> "" <->
     exists e, verdict_of (events_between s s') = None /\
       caught_of (events_between s s') = Some e /\ message_or_String e <> "").
Proof.
  destruct (performEyesComparison_run env urlEntry s) as (r & s' & Hrun & Hentry).
  exists r, s'. split; [exact Hrun|].
  destruct Hentry as [seg tr r0 -> Hv _ _ _ | seg e Hv Hc _ _ _];
    rewrite events_between_app, Hv, ?Hc; unfold link_line, error_line, truthy_string; cbn.
  - split; [right; reflexivity|]. split; split.
    + intros H. exists tr. split; [reflexivity|].
      destruct (String.eqb_spec (getUrl tr) ""); cbn in H; congruence.
    + intros (tr' & Htr & Hne). injection Htr as <-.
      destruct (String.eqb_spec (getUrl tr) ""); cbn; [contradiction | discriminate].
    + intros H. contradiction.
    + intros (e & Hnone & _). discriminate Hnone.
  - split; [left; reflexivity|]. split; split.
    + intros H. contradiction.
    + intros (tr & Htr & _). discriminate Htr.
    + intros H. exists e. repeat split.
      destruct (String.eqb_spec (message_or_String e) ""); cbn in H; congruence.
    + intros (e' & _ & He & Hne). injection He as <-.
      destruct (String.eqb_spec (message_or_String e) ""); cbn; [contradiction | discriminate].
Qed.

Lemma errors_section_none (t : TestSummary) :
  errors_section t = "No errors encountered." -> errors t = [].
Proof.
  unfold errors_section, numbered_errors.
  destruct (errors t) as [|e [|e' rest]]; [reflexivity| |]; cbn; intros H; discriminate H.
Qed.

Lemma establishBaseline_errors_grow (env : Collaborators) (urlEntry : UrlEntry) (s : Suite) :
  exists s' extra,
    establishBaseline env urlEntry s = (Returned tt, s') /\
    errors (testSummary s') = errors (testSummary s) ++ extra.
Proof.
  unfold_entry; split_answers;
    (eexists _, _; split; [reflexivity|]); cbn;
    first [ reflexivity | symmetry; apply app_nil_r ].
Qed.

Lemma baseline_loop_errors_grow (env : Collaborators) (urls : list UrlEntry) (s : Suite) :
  exists s' extra,
    for_of urls (establishBaseline env) s = (Returned tt, s') /\
    errors (testSummary s') = errors (testSummary s) ++ extra.
Proof.
  revert s; induction urls as [|urlEntry rest IH]; intros s.
  - exists s, []. rewrite app_nil_r. split; reflexivity.
  - destruct (establishBaseline_errors_grow env urlEntry s) as (s1 & x1 & Hrun & He).
    destruct (IH s1) as (s2 & x2 & Hloop & He').
    exists s2, (x1 ++ x2). split.
    + cbn [for_of]. unfold bind at 1. rewrite Hrun. exact Hloop.
    + rewrite He', He, app_assoc. reflexivity.
Qed.

Lemma step3_errors_grow (env : Collaborators) (apiKey : bool) (source : CsvStream) (s : Suite) :
  exists extra,
    errors (testSummary (snd (step3 env apiKey source s))) = errors (testSummary s) ++ extra /\
    (extra = [] -> is_returned (fst (step3 env apiKey source s)) = true).
Proof.
  remember (step3 env apiKey source s) as run eqn:Hrun.
  unfold step3 in Hrun. destruct apiKey; cbn [negb] in Hrun.
  - unfold try_catch, bind at 1, await_read in Hrun.
    destruct (readCsvFile source) as [urls|e].
    + unfold bind at 1, modify at 1 in Hrun.
      destruct (baseline_loop_errors_grow env urls
                  (with_summary (add_totalUrls (Z.of_nat (length urls))) s))
        as (s' & extra & Hloop & He).
      rewrite Hloop in Hrun. subst run.
      exists extra. cbn in *. split; [exact He | reflexivity].
    + subst run. eexists. cbn. split; [reflexivity | discriminate].
  - subst run. exists []. cbn. rewrite app_nil_r. split; reflexivity.
Qed.

Lemma step4_errors_grow (env : Collaborators) (apiKey : bool) (target : CsvStream) (s : Suite) :
  exists rs extra,
    eyesResults (testSummary (snd (step4 env apiKey target s)))
      = eyesResults (testSummary s) ++ rs /\
    errors (testSummary (snd (step4 env apiKey target s))) = errors (testSummary s) ++ extra /\
    (extra = [] ->
     is_returned (fst (step4 env apiKey target s)) = true /\ count_where has_error rs = 0) /\
    Forall (fun r => success r = passed r) rs /\
    failedComparisons (testSummary (snd (step4 env apiKey target s)))
      = failedComparisons (testSummary s) + count_where (fun r => negb (success r)) rs.
Proof.
  remember (step4 env apiKey target s) as run eqn:Hrun.
  unfold step4 in Hrun. destruct apiKey; cbn [negb] in Hrun.
  - unfold try_catch, bind at 1, await_read in Hrun.
    destruct (readCsvFile target) as [urls|e].
    + destruct (compare_loop_run env urls s) as (rs & s' & Hloop & Hbatch).
      rewrite Hloop in Hrun. subst run.
      destruct (batch_run_errors _ _ _ _ Hbatch) as (segs & _ & _ & _ & Herr & Hcount).
      destruct (batch_run_summary _ _ _ _ Hbatch) as (_ & Hres & _ & Hfailed & _).
      destruct (batch_run_entries _ _ _ _ Hbatch) as [_ Hpassed].
      exists rs, (concat (zip_with comparison_error_lines urls segs)). cbn [fst snd].
      split; [exact Hres|]. split; [exact Herr|].
      split; [|split; [exact Hpassed | exact Hfailed]].
      intros Hnil. rewrite Hnil, app_nil_r in Herr. rewrite Herr in Hcount.
      split; [reflexivity | lia].
    + subst run.
      exists [], ["Failed to perform visual comparison: " +:+ to_String e]. cbn.
      rewrite app_nil_r. repeat split; try discriminate; try lia. constructor.
  - subst run. exists [], []. cbn. rewrite !app_nil_r. repeat split; try lia. constructor.
Qed.

Lemma no_error_counted (rs : list ComparisonResult) :
  count_where has_error rs = 0 -> Forall (fun r => error r = None) rs.
Proof.
  unfold count_where. induction rs as [|r rs IH]; intros H; [constructor|].
  rewrite sum_of_cons in H.
  pose proof (count_where_nonneg has_error rs) as Hn. unfold count_where in Hn.
  unfold has_error in H at 1. destruct (error r) eqn:He; cbn [one_if] in H; [lia|].
  constructor; [exact He | apply IH; lia].
Qed.

Lemma step3_from_effect (env : Collaborators) (apiKey : bool) (source : list_file) (s : Suite) :
  exists extra,
    errors (testSummary (snd (step3_from env apiKey source s)))
      = errors (testSummary s) ++ extra /\
    (extra = [] -> forall e, fst (step3_from env apiKey source s) <> Some (Threw e)) /\
    eyesResults (testSummary (snd (step3_from env apiKey source s)))
      = eyesResults (testSummary s) /\
    failedComparisons (testSummary (snd (step3_from env apiKey source s)))
      = failedComparisons (testSummary s).
Proof.
  destruct source as [stream|]; cbn [step3_from].
  - destruct (step3_errors_grow env apiKey stream s) as (extra & He & Hr).
    pose proof (step3_summary env apiKey stream s) as H3. cbv zeta in H3.
    destruct H3 as (_ & E3 & _ & F3 & _).
    destruct (step3 env apiKey stream s) as [o s'] eqn:Hrun. cbn [fst snd] in *.
    exists extra. repeat split; try assumption.
    intros Hnil e Heq. specialize (Hr Hnil). injection Heq as ->. discriminate Hr.
  - exists []. rewrite app_nil_r.
    destruct apiKey; cbn; repeat split; intros; discriminate.
Qed.

Lemma step4_from_effect (env : Collaborators) (apiKey : bool) (target : list_file) (s : Suite) :
  exists rs extra,
    eyesResults (testSummary (snd (step4_from env apiKey target s)))
      = eyesResults (testSummary s) ++ rs /\
    errors (testSummary (snd (step4_from env apiKey target s)))
      = errors (testSummary s) ++ extra /\
    (extra = [] ->
     (forall e, fst (step4_from env apiKey target s) <> Some (Threw e)) /\
     count_where has_error rs = 0) /\
    Forall (fun r => success r = passed r) rs /\
    failedComparisons (testSummary (snd (step4_from env apiKey target s)))
      = failedComparisons (testSummary s) + count_where (fun r => negb (success r)) rs.
Proof.
  destruct target as [stream|]; cbn [step4_from].
  - destruct (step4_errors_grow env apiKey stream s) as (rs & extra & Hres & He & Hr & Hp & Hf).
    destruct (step4 env apiKey stream s) as [o s'] eqn:Hrun. cbn [fst snd] in *.
    exists rs, extra. repeat split; try assumption.
    + intros e Heq. injection Heq as ->.
      match goal with H : extra = [] |- _ => destruct (Hr H) as [Hret _] end.
      discriminate Hret.
    + match goal with H : extra = [] |- _ => destruct (Hr H) as [_ Hc] end. exact Hc.
  - exists [], []. rewrite !app_nil_r.
    destruct apiKey; cbn; repeat split; intros; try discriminate; try lia; constructor.
Qed.

(** X16: when the report of a run says [No errors encountered.], neither
    step threw, no result carries an error message, and the failure counter
    is exactly the number of results whose verdict is not ["Passed"].  (A
    step may still not have completed: a list file that cannot be read
    records nothing.) *)
Theorem no_errors_reported_means_no_local_failure
    (env : Collaborators) (apiKey : bool) (source target : list_file) :
  errors_section (testSummary (run_suite_from env apiKey source target))
    = "No errors encountered." ->
  (forall e, fst (step3_from env apiKey source fresh_suite) <> Some (Threw e)) /\
  (forall e,
     fst (step4_from env apiKey target (snd (step3_from env apiKey source fresh_suite)))
     <> Some (Threw e)) /\
  Forall (fun r => error r = None)
    (eyesResults (testSummary (run_suite_from env apiKey source target))) /\
  failedComparisons (testSummary (run_suite_from env apiKey source target))
    = count_where (fun r => negb (passed r))
        (eyesResults (testSummary (run_suite_from env apiKey source target))).
Proof.
  intros Hsec. apply errors_section_none in Hsec. revert Hsec.
  unfold run_suite_from. fold fresh_suite.
  destruct (step3_from_effect env apiKey source fresh_suite) as (x3 & He3 & Hr3 & E3 & F3).
  set (s3 := snd (step3_from env apiKey source fresh_suite)) in *.
  destruct (step4_from_effect env apiKey target s3) as (rs & x4 & Hres & He4 & Hr4 & Hp & Hf).
  rewrite He4, He3, Hres, Hf, E3, F3. cbn [fresh_suite testSummary initial_summary
    errors eyesResults failedComparisons app].
  intros Hnil. apply app_eq_nil in Hnil. destruct Hnil as [-> ->].
  destruct (Hr4 eq_refl) as [Hret Hcount].
  split; [exact (Hr3 eq_refl)|]. split; [exact Hret|]. split.
  - apply no_error_counted; exact Hcount.
  - rewrite (count_where_ext _ _ rs
               (Forall_impl _ _ _ Hp (fun r H => f_equal negb H))). lia.
Qed.

Lemma no_errors_reported_witness :
  errors_section (testSummary (run_suite_from (cooperative passed_results) true
                                 (Readable two_row_target) (Readable two_row_target)))
    = "No errors encountered." /\
  failedComparisons (testSummary (run_suite_from (cooperative passed_results) true
                                    (Readable two_row_target) (Readable two_row_target)))
    = count_where (fun r => negb (passed r))
        (eyesResults (testSummary (run_suite_from (cooperative passed_results) true
                                     (Readable two_row_target) (Readable two_row_target)))).
Proof.
  assert (H : errors_section
                (testSummary (run_suite_from (cooperative passed_results) true
                                (Readable two_row_target) (Readable two_row_target)))
              = "No errors encountered.") by (vm_compute; reflexivity).
  split; [exact H|].
  exact (proj2 (proj2 (proj2 (no_errors_reported_means_no_local_failure
                                (cooperative passed_results) true
                                (Readable two_row_target) (Readable two_row_target) H)))).
Defined.

(** A target file that cannot be read: Step 4 does not complete, nothing is
    recorded, and the report still says that no error was encountered. *)
Example unreadable_target_is_not_reported :
  fst (step4_from (cooperative passed_results) true Unreadable fresh_suite) = None /\
  errors_section (testSummary (run_suite_from (cooperative passed_results) true
                                 (Readable one_row_source) Unreadable))
    = "No errors encountered." /\
  eyesResults (testSummary (run_suite_from (cooperative passed_results) true
                              (Readable one_row_source) Unreadable)) = [].
Proof. vm_compute. repeat split. Qed.

(** 23 successful comparisons of 160: the quotient is rounded before it is
    multiplied, and the rate handed to [toFixed(2)] is below 14.375. *)
Example rate_of_23_in_160 :
  PrimFloat.ltb (percentage 23 160)
    (PrimFloat.div (number_of_count 14375) (number_of_count 1000)) = true /\
  PrimFloat.eqb (percentage 2 2) (number_of_count 100) = true.
Proof. vm_compute. split; reflexivity. Qed.

(** ** Baselines do not leak into comparisons *)

Lemma step4_results_alone (env : Collaborators) (apiKey : bool) (target : CsvStream) (s : Suite) :
  history_free env ->
  exists rs,
    eyesResults (testSummary (snd (step4 env apiKey target s)))
      = eyesResults (testSummary s) ++ rs /\
    map Returned rs = map (compared_alone env) (entries_of apiKey target).
Proof.
  intros Hfree.
  remember (step4 env apiKey target s) as run eqn:Hrun.
  unfold step4, entries_of in *. destruct apiKey; cbn [negb] in Hrun.
  - unfold try_catch, bind at 1, await_read in Hrun.
    destruct (readCsvFile target) as [urls|e].
    + destruct (batch_run_alone env urls s Hfree) as (rs & s' & Hloop & Hres & Hmap).
      rewrite Hloop in Hrun. subst run. exists rs. split; assumption.
    + subst run. exists []. cbn. rewrite app_nil_r. split; reflexivity.
  - subst run. exists []. cbn. rewrite app_nil_r. split; reflexivity.
Qed.

Lemma map_Returned_inj (rs rs' : list ComparisonResult) :
  map (@Returned ComparisonResult) rs = map Returned rs' -> rs = rs'.
Proof.
  revert rs'; induction rs as [|r rs IH]; intros [|r' rs'] H; try discriminate H.
  - reflexivity.
  - cbn in H. injection H as -> H. f_equal. apply IH. exact H.
Qed.

(** X17: with collaborators that answer without looking at the history,
    the results of Step 4 do not depend on Step 3: whatever the source list
    and whatever happened to its baselines, the suite ends with the same
    results, those each target entry gets when compared on its own. *)
Theorem comparison_results_ignore_baselines
    (env : Collaborators) (apiKey : bool) (source source' target : CsvStream) :
  history_free env ->
  eyesResults (testSummary (run_suite env apiKey source target))
    = eyesResults (testSummary (run_suite env apiKey source' target)) /\
  map Returned (eyesResults (testSummary (run_suite env apiKey source target)))
    = map (compared_alone env) (entries_of apiKey target).
Proof.
  intros Hfree.
  assert (Hone : forall src,
            map Returned (eyesResults (testSummary (run_suite env apiKey src target)))
            = map (compared_alone env) (entries_of apiKey target)).
  { intros src. unfold run_suite. fold fresh_suite.
    pose proof (step3_summary env apiKey src fresh_suite) as H3. cbv zeta in H3.
    destruct H3 as (_ & E3 & _).
    destruct (step4_results_alone env apiKey target
                (snd (step3 env apiKey src fresh_suite)) Hfree) as (rs & Hres & Hmap).
    rewrite Hres, E3. cbn. exact Hmap. }
  split; [|apply Hone].
  apply map_Returned_inj. rewrite (Hone source), (Hone source'). reflexivity.
Qed.

Lemma comparison_results_ignore_baselines_witness :
  history_free (unreachable "https://bad.example" passed_results) /\
  eyesResults (testSummary (run_suite (unreachable "https://bad.example" passed_results)
                              true one_row_source two_row_target))
  = eyesResults (testSummary (run_suite (unreachable "https://bad.example" passed_results)
                                true two_row_target two_row_target)).
Proof.
  assert (H : history_free (unreachable "https://bad.example" passed_results))
    by (intros t; repeat split).
  split; [exact H|].
  exact (proj1 (comparison_results_ignore_baselines
                  (unreachable "https://bad.example" passed_results) true
                  one_row_source two_row_target two_row_target H)).
Defined.
